(** * Assessment matrix of the faculty portal (src/app.py)

    A shallow embedding of [src/app.py]:

    - [ASSESSMENT_TYPES]                (lines 27-39)
    - [init_session_state]              (lines 46-52)
    - [login_view]                      (lines 59-93)
    - [load_courses_for_instructor]     (lines 100-111)
    - [add_course_for_instructor]       (lines 114-134)
    - [update_course_for_instructor]    (lines 137-155)
    - [delete_course_for_instructor]    (lines 158-165)
    - [load_assessments_for_course]     (lines 172-209)
    - [save_assessments_for_course]     (lines 212-252)
    - the forms and buttons of [main_view] (lines 333-348, 401-406, 462-474,
      484-492, 519-538, 562-579) and [main] (lines 587-606)

    Modelling choices.

    - A pandas [DataFrame] is the list of its column names and the list of
      its lines.  Reading a column that the frame does not have raises
      [KeyError]; the cells a line holds for such a column are never read.
    - The numeric columns have dtype float64: a cell is a binary64 number
      (Rocq's primitive floats), and the missing value is [nan], which is
      what a JSON [null] becomes in such a column.  A cell of a text column
      is an [option]: [None] stands for a missing value.
    - [Series.sum()] is numpy's sum of a float64 array with its order of
      additions (pairwise summation, [pairwise_sum]), every addition being
      rounded to binary64.
    - A Python [str] is the byte string of its UTF-8 encoding; [strip]
      removes the encodings of the characters for which [str.isspace] holds.
    - The record store is a pair of tables held as lists in insertion
      order.  Every query on table [assessments] and every delete are
      appended to a log, so that the order of effects can be stated.  The
      store primitives are total and keep the records as they are sent:
      failures of the external client are outside the model. *)

From Stdlib Require Import List String Ascii Bool ZArith QArith Lia Permutation.
From Stdlib Require Import DecimalString Floats.
Import ListNotations.

Local Open Scope string_scope.
Local Open Scope list_scope.

(** ** Data model *)

(** One record of table [assessments], and one line of the data frames built
    from such records. *)
Record row : Type := mkRow {
  instructor_code : option string;
  course_code : option string;
  assessment_type : option string;
  percent_of_class_assessment : float;
  ai_misuse_susceptibility : float;
  modification_level : float
}.

(** A data frame: its column names and its lines. *)
Record DataFrame : Type := mkFrame {
  columns : list string;
  lines : list row
}.

(** One record of table [courses]. *)
Record course : Type := mkCourse {
  id : string;
  course_instructor_code : string;
  course_course_code : string;
  course_title : string;
  term : string;
  level : string;
  modality : string;
  approx_students : Z
}.

(** Fixed assessment types (11 rows). *)
Definition ASSESSMENT_TYPES : list string :=
  [ "In-person exam/quiz, closed resources, no AI";
    "In-person exam/quiz, limited resources (notes/book), no AI";
    "In-person exam/quiz, open resources, AI allowed";
    "Online timed exam/quiz, closed resources, no AI";
    "Online timed exam/quiz, limited resources (notes/book), no AI";
    "Online timed exam/quiz, open resources, AI allowed";
    "Out-of-class untimed exam/quiz, closed resources, no AI";
    "Out-of-class untimed exam/quiz, limited resources (notes/book), no AI";
    "Out-of-class untimed exam/quiz, open resources, AI allowed";
    "In-person participation/presentations, no AI";
    "In-person participation/presentations, AI allowed" ].

(** The columns of the matrix, in the order of lines 199-204. *)
Definition matrix_columns : list string :=
  [ "assessment_type"; "percent_of_class_assessment";
    "ai_misuse_susceptibility"; "modification_level" ].

(** ** Cells and columns *)

Definition cell_eqb (c : option string) (s : string) : bool :=
  match c with
  | Some v => String.eqb v s
  | None => false
  end.

(** [Series.fillna(v)] on one cell of a text column. *)
Definition fillna {A : Type} (v : A) (c : option A) : option A :=
  match c with
  | Some x => Some x
  | None => Some v
  end.

(** [Series.fillna(v)] on one cell of a float64 column. *)
Definition fillna_num (v x : float) : float :=
  if PrimFloat.is_nan x then v else x.

Definition set_instructor_code (v : option string) (r : row) : row :=
  mkRow v (course_code r) (assessment_type r) (percent_of_class_assessment r)
        (ai_misuse_susceptibility r) (modification_level r).

Definition set_course_code (v : option string) (r : row) : row :=
  mkRow (instructor_code r) v (assessment_type r) (percent_of_class_assessment r)
        (ai_misuse_susceptibility r) (modification_level r).

Definition set_assessment_type (v : option string) (r : row) : row :=
  mkRow (instructor_code r) (course_code r) v (percent_of_class_assessment r)
        (ai_misuse_susceptibility r) (modification_level r).

Definition set_percent (v : float) (r : row) : row :=
  mkRow (instructor_code r) (course_code r) (assessment_type r) v
        (ai_misuse_susceptibility r) (modification_level r).

Definition set_ai (v : float) (r : row) : row :=
  mkRow (instructor_code r) (course_code r) (assessment_type r)
        (percent_of_class_assessment r) v (modification_level r).

Definition set_modification (v : float) (r : row) : row :=
  mkRow (instructor_code r) (course_code r) (assessment_type r)
        (percent_of_class_assessment r) (ai_misuse_susceptibility r) v.

(** [c in df.columns] *)
Definition has_column (c : string) (df : DataFrame) : bool :=
  existsb (String.eqb c) (columns df).

(** [df[c] = ...]: the cells of column [c] are rewritten line by line; a
    column the frame did not have is added after the others. *)
Definition setitem (c : string) (f : row -> row) (df : DataFrame) : DataFrame :=
  mkFrame (if has_column c df then columns df else columns df ++ [c])
          (map f (lines df)).

(** A frame has the four columns of the matrix. *)
Definition has_matrix_columns (df : DataFrame) : bool :=
  forallb (fun c => has_column c df) matrix_columns.

(** ** Sums of float64 columns *)

(** The tail of numpy's unrolled loop: eight running sums take eight
    numbers at a time; what is left when fewer than eight remain is added,
    one number after the other, to the combination of the eight sums. *)
Fixpoint block_rest (r0 r1 r2 r3 r4 r5 r6 r7 : float) (a : list float) : float :=
  match a with
  | x0 :: x1 :: x2 :: x3 :: x4 :: x5 :: x6 :: x7 :: rest =>
      block_rest (r0 + x0) (r1 + x1) (r2 + x2) (r3 + x3)
                 (r4 + x4) (r5 + x5) (r6 + x6) (r7 + x7) rest
  | _ =>
      fold_left PrimFloat.add a
                (((r0 + r1) + (r2 + r3)) + ((r4 + r5) + (r6 + r7)))%float
  end.

(** numpy's sum of at most 128 numbers: fewer than eight are added from left
    to right, starting from -0.0; otherwise the first eight start the eight
    running sums. *)
Definition block_sum (a : list float) : float :=
  match a with
  | x0 :: x1 :: x2 :: x3 :: x4 :: x5 :: x6 :: x7 :: rest =>
      block_rest x0 x1 x2 x3 x4 x5 x6 x7 rest
  | _ => fold_left PrimFloat.add a (-0)%float
  end.

(** numpy's [pairwise_sum]: more than 128 numbers are split in two parts,
    the first one of a length that is a multiple of eight, and the sums of
    the parts are added.  [fuel] bounds the depth of the splitting; the
    length of the list is always enough. *)
Fixpoint pairwise_sum (fuel : nat) (a : list float) : float :=
  match fuel with
  | O => block_sum a
  | S fuel' =>
      let n := List.length a in
      if (n <=? 128)%nat then block_sum a
      else
        let n2 := (n / 2)%nat in
        let n2 := (n2 - n2 mod 8)%nat in
        (pairwise_sum fuel' (firstn n2 a) + pairwise_sum fuel' (skipn n2 a))%float
  end.

(** [ndarray.sum()] of a float64 array: 0.0 for no number at all, otherwise
    the pairwise sum added to the initial value -0.0 (numpy before 1.25
    starts from 0.0 in both places, which differs in the sign of a sum that
    is zero and in nothing else). *)
Definition np_sum (a : list float) : float :=
  match a with
  | [] => 0%float
  | _ => ((-0) + pairwise_sum (List.length a) a)%float
  end.

(** [Series.sum()] of a float64 column: the missing values count for 0.0. *)
Definition series_sum (s : list float) : float :=
  np_sum (map (fillna_num 0) s).

(** ** Strings *)

(** The characters of [str.isspace] that are one byte long in UTF-8:
    U+0009 to U+000D, U+001C to U+0020. *)
Definition space1 (a : ascii) : bool :=
  let n := nat_of_ascii a in
  ((9 <=? n) && (n <=? 13) || (28 <=? n) && (n <=? 32))%nat.

(** Two bytes: U+0085 and U+00A0. *)
Definition space2 (a b : ascii) : bool :=
  let n := nat_of_ascii a in
  let m := nat_of_ascii b in
  ((n =? 194) && ((m =? 133) || (m =? 160)))%nat.

(** Three bytes: U+1680, U+2000 to U+200A, U+2028, U+2029, U+202F, U+205F
    and U+3000. *)
Definition space3 (a b c : ascii) : bool :=
  let n := nat_of_ascii a in
  let m := nat_of_ascii b in
  let k := nat_of_ascii c in
  ((n =? 225) && (m =? 154) && (k =? 128)
   || (n =? 226) && (m =? 128)
      && ((128 <=? k) && (k <=? 138) || (k =? 168) || (k =? 169) || (k =? 175))
   || (n =? 226) && (m =? 129) && (k =? 159)
   || (n =? 227) && (m =? 128) && (k =? 128))%nat.

Section Strip.

(** What counts as a character to remove, by the bytes it is made of. *)
Variable p1 : ascii -> bool.
Variable p2 : ascii -> ascii -> bool.
Variable p3 : ascii -> ascii -> ascii -> bool.

(** The characters to remove are dropped from the front as long as there is
    one. *)
Fixpoint strip_front (s : list ascii) : list ascii :=
  match s with
  | [] => []
  | a :: s1 =>
      if p1 a then strip_front s1
      else
        match s1 with
        | [] => s
        | b :: s2 =>
            if p2 a b then strip_front s2
            else
              match s2 with
              | [] => s
              | c :: s3 => if p3 a b c then strip_front s3 else s
              end
        end
  end.

End Strip.

(** [str.lstrip()] and [str.rstrip()] on the list of the bytes. *)
Definition lstrip_bytes (s : list ascii) : list ascii :=
  strip_front space1 space2 space3 s.

Definition rstrip_bytes (s : list ascii) : list ascii :=
  rev (strip_front space1 (fun a b => space2 b a) (fun a b c => space3 c b a)
                   (rev s)).

(** [str.strip()] *)
Definition strip (s : string) : string :=
  string_of_list_ascii (rstrip_bytes (lstrip_bytes (list_ascii_of_string s))).

(** ** Formatting of the total: [f"{total:.1f}"] *)

(** Nearest integer, ties to the even one. *)
Definition round_half_even (q : Q) : Z :=
  let n := Qnum q in
  let d := Zpos (Qden q) in
  let f := (n / d)%Z in
  let r2 := (2 * (n mod d))%Z in
  if (r2 <? d)%Z then f
  else if (d <? r2)%Z then (f + 1)%Z
  else if Z.even f then f else (f + 1)%Z.

Definition string_of_Z_nonneg (z : Z) : string :=
  NilZero.string_of_uint (N.to_uint (Z.to_N z)).

(** The number [mantissa * 2 ^ exponent] with one decimal. *)
Definition one_decimal (mantissa : positive) (exponent : Z) : string :=
  let tenths :=
    round_half_even (inject_Z (Zpos mantissa) * Qpower 2 exponent * 10)%Q in
  string_of_Z_nonneg (tenths / 10) ++ "." ++ string_of_Z_nonneg (tenths mod 10).

Definition format_1f (x : float) : string :=
  match Prim2SF x with
  | S754_nan => "nan"
  | S754_infinity s => if s then "-inf" else "inf"
  | S754_zero s => if s then "-0.0" else "0.0"
  | S754_finite s m e => (if s then "-" else "") ++ one_decimal m e
  end.

(** ** The record store and the effects of the program *)

Record db : Type := mkDb {
  assessments : list row;
  courses : list course
}.

(** The queries the program sends with [.execute()]. *)
Inductive query : Type :=
| SelectAssessments (ic cc : string)
| DeleteAssessments (ic cc : string)
| InsertAssessments (rows : list row)
| DeleteCourse (course_id ic : string).

Record world : Type := mkWorld {
  store : db;
  executed : list query
}.

(** The exceptions of the program.  [KeyError] carries the names of the
    columns that were asked for and that the frame does not have; the
    wording of its message is not modelled. *)
Inductive exn : Type :=
| ValueError (message : string)
| KeyError (missing : list string).

(** Computations that read and write the store and may raise. *)
Definition M (A : Type) : Type := world -> (exn + A) * world.

Definition ret {A : Type} (a : A) : M A := fun w => (inr a, w).

Definition raise {A : Type} (e : exn) : M A := fun w => (inl e, w).

Definition bind {A B : Type} (m : M A) (k : A -> M B) : M B :=
  fun w =>
    match m w with
    | (inl e, w') => (inl e, w')
    | (inr a, w') => k a w'
    end.

Notation "x <- m ;; k" := (bind m (fun x => k))
  (at level 61, m at next level, right associativity).
Notation "m ;;; k" := (bind m (fun _ => k))
  (at level 61, right associativity).

(** [.eq("instructor_code", ic).eq("course_code", cc)] on table
    [assessments]. *)
Definition keyed (ic cc : string) (r : row) : bool :=
  cell_eqb (instructor_code r) ic && cell_eqb (course_code r) cc.

Definition owned_by (ic : string) (c : course) : bool :=
  String.eqb (course_instructor_code c) ic.

(** [.eq("id", course_id).eq("instructor_code", ic)] on table [courses]. *)
Definition course_keyed (course_id ic : string) (c : course) : bool :=
  String.eqb (id c) course_id && owned_by ic c.

Definition select_assessments (ic cc : string) : M (list row) :=
  fun w =>
    (inr (filter (keyed ic cc) (assessments (store w))),
     mkWorld (store w) (executed w ++ [SelectAssessments ic cc])).

Definition delete_assessments (ic cc : string) : M unit :=
  fun w =>
    (inr tt,
     mkWorld (mkDb (filter (fun r => negb (keyed ic cc r)) (assessments (store w)))
                   (courses (store w)))
             (executed w ++ [DeleteAssessments ic cc])).

Definition insert_assessments (rows : list row) : M unit :=
  fun w =>
    (inr tt,
     mkWorld (mkDb (assessments (store w) ++ rows) (courses (store w)))
             (executed w ++ [InsertAssessments rows])).

Definition delete_course (course_id ic : string) : M unit :=
  fun w =>
    (inr tt,
     mkWorld (mkDb (assessments (store w))
                   (filter (fun c => negb (course_keyed course_id ic c))
                           (courses (store w))))
             (executed w ++ [DeleteCourse course_id ic])).

(** A result or an exception, as a computation that leaves the store alone. *)
Definition lift {A : Type} (r : exn + A) : M A :=
  match r with
  | inl e => raise e
  | inr a => ret a
  end.

(** ** The program *)

(** [delete_course_for_instructor], lines 158-165. *)
Definition delete_course_for_instructor (course_id ic cc : string) : M unit :=
  (* Delete assessments for this instructor + course *)
  delete_assessments ic cc ;;;
  (* Delete the course itself *)
  delete_course course_id ic.

(** A line that has a label and no number. *)
Definition blank (t : string) : row :=
  mkRow None None (Some t) nan nan nan.

(** [pd.DataFrame({"assessment_type": ASSESSMENT_TYPES})], line 187. *)
Definition df_types : DataFrame :=
  mkFrame ["assessment_type"] (map blank ASSESSMENT_TYPES).

(** [df.loc[0, "percent_of_class_assessment"] = v]: the line labelled 0 is
    the first one; on a frame without lines pandas adds one. *)
Definition loc0_set_percent (v : float) (df : DataFrame) : DataFrame :=
  mkFrame
    (if has_column "percent_of_class_assessment" df then columns df
     else columns df ++ ["percent_of_class_assessment"])
    (match lines df with
     | [] => [mkRow None None None v nan nan]
     | r :: rest => set_percent v r :: rest
     end).

(** The branch [if not data], lines 189-195. *)
Definition default_matrix : DataFrame :=
  let df_types := setitem "percent_of_class_assessment" (set_percent 0) df_types in
  let df_types := loc0_set_percent 100 df_types in
  let df_types := setitem "ai_misuse_susceptibility" (set_ai 0) df_types in
  let df_types := setitem "modification_level" (set_modification 0) df_types in
  df_types.

(** [df_db[["assessment_type", "percent_of_class_assessment",
    "ai_misuse_susceptibility", "modification_level"]]], lines 198-205, on
    one record read with [select("*")]. *)
Definition project_columns (r : row) : row :=
  mkRow None None (assessment_type r) (percent_of_class_assessment r)
        (ai_misuse_susceptibility r) (modification_level r).

(** The lines of [df_db] joined to the line of [df_types] whose key is [t]. *)
Definition matching (t : string) (df_db : list row) : list row :=
  filter (fun r => cell_eqb (assessment_type r) t) df_db.

(** [df_types.merge(df_db, on="assessment_type", how="left")], line 208:
    the keys of the left frame in their order; a key with no partner keeps
    one line with missing values, a key with several partners gets one line
    per partner. *)
Definition merge_left (types : list string) (df_db : list row) : list row :=
  flat_map
    (fun t =>
       match matching t df_db with
       | [] => [blank t]
       | partners => map (set_assessment_type (Some t)) partners
       end)
    types.

(** Lines 187-209 of [load_assessments_for_course]: what is returned for
    the records [data] read from the store. *)
Definition reconcile (data : list row) : DataFrame :=
  match data with
  | [] => default_matrix
  | _ => mkFrame matrix_columns (merge_left ASSESSMENT_TYPES (map project_columns data))
  end.

(** [load_assessments_for_course], lines 172-209. *)
Definition load_assessments_for_course (ic cc : string) : M DataFrame :=
  data <- select_assessments ic cc ;;
  ret (reconcile data).

Definition percent_sum_message (total : float) : string :=
  "The 'Percent of class assessment' values must sum to 100. "
  ++ "Right now they sum to " ++ format_1f total
  ++ ". Please adjust the numbers and try again.".

(** What lines 220, 221, 232 and 233 do to one line. *)
Definition strip_label (r : row) : row :=
  set_assessment_type (option_map strip (fillna "" (assessment_type r))) r.

Definition fill_percent (r : row) : row :=
  set_percent (fillna_num 0 (percent_of_class_assessment r)) r.

Definition fill_ai (r : row) : row :=
  set_ai (fillna_num 0 (ai_misuse_susceptibility r)) r.

Definition fill_modification (r : row) : row :=
  set_modification (fillna_num 0 (modification_level r)) r.

(** Lines 220-233 of [save_assessments_for_course]: normalisation, the check
    of the total, and the defaults of the two other numeric columns.  Each
    column is read before it is written, which raises [KeyError] when the
    frame does not have it. *)
Definition validate (df : DataFrame) : exn + DataFrame :=
  if negb (has_column "assessment_type" df) then
    inl (KeyError ["assessment_type"])
  else
  let df := setitem "assessment_type" strip_label df in
  if negb (has_column "percent_of_class_assessment" df) then
    inl (KeyError ["percent_of_class_assessment"])
  else
  let df := setitem "percent_of_class_assessment" fill_percent df in
  let total := series_sum (map percent_of_class_assessment (lines df)) in
  (* Validation for total 100 *)
  if (0.5 <? abs (total - 100))%float then
    inl (ValueError (percent_sum_message total))
  else
  if negb (has_column "ai_misuse_susceptibility" df) then
    inl (KeyError ["ai_misuse_susceptibility"])
  else
  let df := setitem "ai_misuse_susceptibility" fill_ai df in
  if negb (has_column "modification_level" df) then
    inl (KeyError ["modification_level"])
  else
  let df := setitem "modification_level" fill_modification df in
  inr df.

(** Lines 235-242. *)
Definition cols : list string :=
  [ "instructor_code"; "course_code"; "assessment_type";
    "percent_of_class_assessment"; "ai_misuse_susceptibility";
    "modification_level" ].

(** [df[cols]] for a list of columns: [KeyError] names the columns that the
    frame does not have. *)
Definition select_columns (cols : list string) (df : DataFrame) : exn + DataFrame :=
  match filter (fun c => negb (has_column c df)) cols with
  | [] => inr (mkFrame cols (lines df))
  | missing => inl (KeyError missing)
  end.

(** Lines 243-246: the two key columns are assigned, then the six columns
    of the frame become a list of records. *)
Definition to_records (ic cc : string) (df : DataFrame) : exn + list row :=
  let df := setitem "instructor_code" (set_instructor_code (Some ic)) df in
  let df := setitem "course_code" (set_course_code (Some cc)) df in
  match select_columns cols df with
  | inl e => inl e
  | inr df => inr (lines df)
  end.

(** Lines 235-252 of [save_assessments_for_course]: replace existing rows. *)
Definition replaceAll (ic cc : string) (df : DataFrame) : M unit :=
  rows <- lift (to_records ic cc df) ;;
  delete_assessments ic cc ;;;
  insert_assessments rows.

(** [save_assessments_for_course], lines 212-252. *)
Definition save_assessments_for_course (ic cc : string) (df : DataFrame) : M unit :=
  df <- lift (validate df) ;;
  replaceAll ic cc df.

(** ** Notions used in the statements *)

(** Lines 220-221 on the lines of a frame, and the total of line 223. *)
Definition normalize (l : list row) : list row :=
  map fill_percent (map strip_label l).

Definition total_percent (df : DataFrame) : float :=
  series_sum (map percent_of_class_assessment (normalize (lines df))).

(** Lines 232-233 on the lines of a frame. *)
Definition fill_defaults (l : list row) : list row :=
  map fill_modification (map fill_ai l).

(** The frame that the validation returns when it succeeds. *)
Definition accepted (df : DataFrame) : DataFrame :=
  mkFrame (columns df) (fill_defaults (normalize (lines df))).

(** The records made of the lines of a frame, lines 243-246. *)
Definition records (ic cc : string) (l : list row) : list row :=
  map (set_course_code (Some cc)) (map (set_instructor_code (Some ic)) l).

(** The distance of the total to 100 as line 226 computes it, and its test
    [abs(total - 100.0) > 0.5]. *)
Definition deviation (total : float) : float := abs (total - 100).

Definition outside_tolerance (total : float) : bool :=
  (0.5 <? deviation total)%float.

(** The total is within 0.5 of 100. *)
Definition within_tolerance (total : float) : Prop :=
  (deviation total <=? 0.5)%float = true.

(** A number that is not negative: a zero, a positive number or plus
    infinity. *)
Definition nonneg (x : float) : Prop := (0 <=? x)%float = true.

(** Every percent cell of the frame is missing or not negative. *)
Definition percents_not_negative (df : DataFrame) : Prop :=
  Forall (fun r => PrimFloat.is_nan (percent_of_class_assessment r) = true
                   \/ nonneg (percent_of_class_assessment r))
         (lines df).

(** No type of the registry is carried by more than one record. *)
Definition at_most_one_per_type (data : list row) : bool :=
  forallb (fun t => (List.length (matching t data) <=? 1)%nat) ASSESSMENT_TYPES.

(** The line a left join yields for key [t] when [t] has at most one
    partner. *)
Definition joined_line (df_db : list row) (t : string) : row :=
  match matching t df_db with
  | [] => blank t
  | r :: _ => set_assessment_type (Some t) r
  end.

(** The records of the pair [(ic, cc)] held by the store. *)
Definition persisted (ic cc : string) (w : world) : list row :=
  filter (keyed ic cc) (assessments (store w)).

(** ** Test values *)

Definition row_of (t : string) (p a m : float) : row :=
  mkRow None None (Some t) p a m.

Definition stored (ic cc t : string) (p a m : float) : row :=
  mkRow (Some ic) (Some cc) (Some t) p a m.

Definition matrix_of (l : list row) : DataFrame := mkFrame matrix_columns l.

Definition empty_world : world := mkWorld (mkDb [] []) [].

Definition T0 : string := "In-person exam/quiz, closed resources, no AI".
Definition T3 : string := "Online timed exam/quiz, closed resources, no AI".

(** Stored records of one pair: two registry types and one type unknown to
    the registry. *)
Definition partial_with_unknown : list row :=
  [ stored "i1" "c1" T3 40 10 20;
    stored "i1" "c1" "Take-home essay" 35 0 0;
    stored "i1" "c1" T0 60 5 0 ].

(** The scenario of the specification: 60 and 40 stored, then the first
    value edited to 70. *)
Definition scenario_stored : list row :=
  [ stored "i1" "c1" T0 60 0 0; stored "i1" "c1" T3 40 0 0 ].

Definition scenario_edited : DataFrame :=
  loc0_set_percent 70 (reconcile scenario_stored).

(** Two frames whose totals, 110.25 and 110.1875, differ. *)
Definition total_110_25 : DataFrame := matrix_of [row_of T0 110.25 0 0].
Definition total_110_1875 : DataFrame := matrix_of [row_of T0 110.1875 0 0].

(** A frame whose total is 89.75. *)
Definition total_89_75 : DataFrame :=
  matrix_of [row_of T0 89.5 0 0; row_of T3 0.25 0 0].

(** A frame whose percents are the infinities: their sum is not a number. *)
Definition total_nan : DataFrame :=
  matrix_of [row_of T0 infinity 0 0; row_of T3 neg_infinity 0 0].

(** Percents whose sum as rational numbers is above 100.5, and whose sum in
    binary64 is 100.5. *)
Definition rounded_down : DataFrame :=
  matrix_of [row_of T0 50.25 0 0; row_of T3 50.25 0 0;
             row_of "Take-home essay" 0x1p-60 0 0].

(** A frame of total 100 with values outside 0-100 and with missing cells,
    whose lines name another instructor and course. *)
Definition out_of_range : DataFrame :=
  mkFrame cols
    [ mkRow (Some "i2") (Some "c9") (Some T0) 150 250 (-7);
      mkRow (Some "i2") None (Some T3) (-50) nan 1000;
      mkRow None None None nan (-1) nan ].

(** A frame of total 100 that has a single line of an unknown type. *)
Definition single_line : DataFrame := matrix_of [row_of "Take-home essay" 100 0 0].

(** The frame shown when the load failed, line 529: it has one column. *)
Definition fallback_frame : DataFrame := df_types.

(** A store that already holds records of two pairs. *)
Definition busy_world : world :=
  mkWorld
    (mkDb [ stored "i1" "c1" T0 100 0 0; stored "i2" "c1" T0 100 0 0;
            stored "i1" "c1" T3 0 0 0 ]
          [ mkCourse "7" "i1" "c1" "Algebra" "Fall" "Undergraduate" "In person" 30%Z ])
    [].

(** ** Further definitions *)

(** The strings of a list are pairwise different. *)
Fixpoint distinct (l : list string) : bool :=
  match l with
  | [] => true
  | x :: l' => negb (existsb (String.eqb x) l') && distinct l'
  end.

Section Clean.

Variable p1 : ascii -> bool.
Variable p2 : ascii -> ascii -> bool.
Variable p3 : ascii -> ascii -> ascii -> bool.

(** A list of bytes that does not begin with a character to remove. *)
Definition clean (s : list ascii) : Prop :=
  match s with
  | [] => True
  | a :: s1 =>
      p1 a = false
      /\ match s1 with
         | [] => True
         | b :: s2 =>
             p2 a b = false
             /\ match s2 with
                | [] => True
                | c :: _ => p3 a b c = false
                end
         end
  end.

End Clean.

(** A no-break space, U+00A0, and an ideographic space, U+3000, as UTF-8. *)
Definition no_break_space : string :=
  String (ascii_of_nat 194) (String (ascii_of_nat 160) "").

Definition ideographic_space : string :=
  String (ascii_of_nat 227) (String (ascii_of_nat 128) (String (ascii_of_nat 128) "")).

(** What a line of a frame looks like once it was saved and loaded again:
    the two key columns are not part of the loaded frame, and the missing
    numeric cells were saved as 0.0. *)
Definition as_reloaded (r : row) : row :=
  mkRow None None (assessment_type r)
        (fillna_num 0 (percent_of_class_assessment r))
        (fillna_num 0 (ai_misuse_susceptibility r))
        (fillna_num 0 (modification_level r)).

(** A frame whose labels carry white space and whose cells are partly
    missing; its percents sum to 100. *)
Definition untidy : DataFrame :=
  mkFrame cols
    [ mkRow None None (Some (no_break_space ++ " Essay " ++ ideographic_space)%string)
            99.5 nan 1.5;
      mkRow (Some "i9") None None nan 120 nan;
      mkRow None None (Some T0) 0.5 nan nan ].

(** The matrix loaded for one stored record of 40 percent, with the first
    line edited to 60: a frame of registry shape with missing cells. *)
Definition edited_partial : DataFrame :=
  loc0_set_percent 60 (reconcile [stored "i1" "c1" T3 40 7 9]).

(** ** The table of courses *)

(** The helpers of lines 100-155 send one query each to table [courses];
    they are given as transitions of the store. *)

Section CourseTable.

(** [.order("created_at", desc=True)]: the column [created_at] is written
    by the store and is not part of [course]; all that is used of the
    ordering is that it rearranges the records it is given. *)
Variable order_by_created_at_desc : list course -> list course.

(** [load_courses_for_instructor], lines 100-111. *)
Definition load_courses_for_instructor (ic : string) (d : db) : list course :=
  order_by_created_at_desc (filter (owned_by ic) (courses d)).

End CourseTable.

(** [add_course_for_instructor], lines 114-134.  The inserted record has no
    [id]: the store generates it, here [new_id]. *)
Definition add_course_for_instructor
           (new_id : string)
           (ic cc title term_ level_ modality_ : string) (students : Z)
           (d : db) : db :=
  mkDb (assessments d)
       (courses d ++ [mkCourse new_id ic cc title term_ level_ modality_ students]).

(** [update_course_for_instructor], lines 137-155. *)
Definition update_course_for_instructor
           (course_id ic title term_ level_ modality_ : string) (students : Z)
           (d : db) : db :=
  mkDb (assessments d)
       (map (fun c =>
               if course_keyed course_id ic c
               then mkCourse (id c) (course_instructor_code c) (course_course_code c)
                             title term_ level_ modality_ students
               else c)
            (courses d)).

(** [delete_course_for_instructor] as a transition of the store. *)
Definition delete_course_in (course_id ic cc : string) (d : db) : db :=
  store (snd (delete_course_for_instructor course_id ic cc (mkWorld d []))).

(** [save_assessments_for_course] as a transition of the store; what it
    raises is caught by the caller, lines 568-579. *)
Definition save_assessments_in (ic cc : string) (df : DataFrame) (d : db) : db :=
  store (snd (save_assessments_for_course ic cc df (mkWorld d []))).

(** ** The forms of [main_view] *)

Inductive feedback : Type :=
| error_ (message : string)
| success_ (message : string).

(** The form "Add a course", lines 333-348. *)
Definition submit_add_course
           (new_id : string)
           (ic course_code_ title term_ level_ modality_ : string) (students : Z)
           (d : db) : feedback * db :=
  if String.eqb (strip course_code_) "" then
    (error_ "Course code is required.", d)
  else
    (success_ "Course added.",
     add_course_for_instructor new_id ic (strip course_code_) (strip title)
                               (strip term_) (strip level_) (strip modality_)
                               students d).

(** What the logged-in instructor can do to the store through [main_view]:
    the form "Add a course" (lines 333-348), the form "Save course changes"
    (lines 462-474), the button "Delete this course" (lines 484-492) and the
    button "Save assessments for this course" (lines 562-567), the last three
    on the selected course. *)
Inductive action : Type :=
| AddCourse (new_id course_code_ title term_ level_ modality_ : string) (students : Z)
| SaveCourseChanges (selected_course : course)
                    (title term_ level_ modality_ : string) (students : Z)
| DeleteThisCourse (selected_course : course)
| SaveAssessments (selected_course : course) (edited_df : DataFrame).

Definition handle (ic : string) (d : db) (a : action) : db :=
  match a with
  | AddCourse new_id cc title term_ level_ modality_ students =>
      snd (submit_add_course new_id ic cc title term_ level_ modality_ students d)
  | SaveCourseChanges selected title term_ level_ modality_ students =>
      update_course_for_instructor (id selected) ic (strip title) (strip term_)
                                   (strip level_) (strip modality_) students d
  | DeleteThisCourse selected =>
      delete_course_in (id selected) ic (course_course_code selected) d
  | SaveAssessments selected edited_df =>
      save_assessments_in ic (course_course_code selected) edited_df d
  end.

(** The instructor code of the session uses the portal for a while. *)
Definition session_of (ic : string) (actions : list action) (d : db) : db :=
  fold_left (handle ic) actions d.

(** A course code as the form writes it: not empty, no white space around. *)
Definition tidy_code (c : course) : Prop :=
  course_course_code c <> "" /\ strip (course_course_code c) = course_course_code c.

(** ** The total shown above the editor, lines 531-538 *)



(** ** The select box of courses, lines 401-406 *)

(** An en dash, as UTF-8. *)
Definition en_dash : string :=
  String (ascii_of_nat 226) (String (ascii_of_nat 128) (String (ascii_of_nat 147) "")).

(** [f"{c['course_code']} - {c.get('course_title', '') or ''}"], with an en
    dash. *)
Definition course_label (c : course) : string :=
  course_course_code c ++ " " ++ en_dash ++ " " ++ course_title c.

(** [d[k] = v] on a Python dict: a key already there keeps its place and
    gets the new value, a new key goes last. *)
Fixpoint dict_set {V : Type} (k : string) (v : V) (d : list (string * V))
  : list (string * V) :=
  match d with
  | [] => [(k, v)]
  | (k', v') :: d' =>
      if String.eqb k' k then (k', v) :: d' else (k', v') :: dict_set k v d'
  end.

Fixpoint dict_get {V : Type} (k : string) (d : list (string * V)) : option V :=
  match d with
  | [] => None
  | (k', v) :: d' => if String.eqb k' k then Some v else dict_get k d'
  end.

(** [options = {label(c): c for c in courses}] *)
Definition options (courses_ : list course) : list (string * course) :=
  fold_left (fun d c => dict_set (course_label c) c d) courses_ [].

(** [labels = list(options.keys())] *)
Definition labels (courses_ : list course) : list string :=
  map fst (options courses_).

(** [selected_course = options[selected_label]] *)
Definition selected_course (courses_ : list course) (selected_label : string)
  : option course :=
  dict_get selected_label (options courses_).

(** Two course records of one instructor with the same course code (one per
    modality), and the records of their shared pair. *)
Definition two_modalities : world :=
  mkWorld
    (mkDb [ stored "i1" "ACCT 2001" T0 100 0 0; stored "i2" "ACCT 2001" T3 100 0 0 ]
          [ mkCourse "1" "i1" "ACCT 2001" "Accounting" "Fall" "" "In person" 40%Z;
            mkCourse "2" "i1" "ACCT 2001" "Accounting" "Fall" "" "Online synchronous" 25%Z ])
    [].

(** Stored records whose types the registry does not know. *)
Definition drifted : list row :=
  [ stored "i1" "c1" "in-person exam/quiz, closed resources, no ai" 60 0 0;
    stored "i1" "c1" "Take-home essay" 40 0 0 ].

(** A table of courses of two instructors. *)
Definition campus : db :=
  mkDb [ stored "i1" "ACCT 2001" T0 100 0 0; stored "i2" "MKTG 3000" T3 100 0 0 ]
       [ mkCourse "1" "i1" "ACCT 2001" "Accounting" "Fall" "" "In person" 40%Z;
         mkCourse "2" "i2" "MKTG 3000" "Marketing" "Fall" "Graduate" "" 25%Z;
         mkCourse "3" "i1" "ACCT 3001" "Auditing" "Spring" "" "" 0%Z ].

(** What instructor "i1" does in one visit. *)
Definition a_visit : list action :=
  [ AddCourse "4" " ACCT 2001 " "Accounting II" "Spring" "" "" 10%Z;
    AddCourse "5" "   " "No code" "" "" "" 0%Z;
    SaveCourseChanges (mkCourse "2" "i2" "MKTG 3000" "Marketing" "Fall" "Graduate" "" 25%Z)
                      "Taken over" "" "" "" 0%Z;
    SaveAssessments (mkCourse "2" "i2" "MKTG 3000" "Marketing" "Fall" "Graduate" "" 25%Z)
                    single_line;
    SaveAssessments (mkCourse "2" "i2" "MKTG 3000" "Marketing" "Fall" "Graduate" "" 25%Z)
                    fallback_frame;
    DeleteThisCourse (mkCourse "2" "i2" "MKTG 3000" "Marketing" "Fall" "Graduate" "" 25%Z);
    DeleteThisCourse (mkCourse "3" "i1" "ACCT 3001" "Auditing" "Spring" "" "" 0%Z) ].

(** ** Session and login *)

(** One record of table [instructors], columns [code, name, email]. *)
Record instructor : Type := mkInstructor {
  code : string;
  name : option string;
  email : option string
}.

(** The dict stored under ["user_info"]. *)
Record user : Type := mkUser {
  user_name : option string;
  user_email : option string
}.

(** [st.session_state], keys ["logged_in"], ["code"] and ["user_info"]; a
    field is [None] when the key is absent. *)
Record session_state : Type := mkSession {
  logged_in : option bool;
  session_code : option string;
  user_info : option (option user)
}.

(** [st.session_state.clear()] *)
Definition cleared : session_state := mkSession None None None.

(** [init_session_state], lines 46-52. *)
Definition init_session_state (s : session_state) : session_state :=
  mkSession
    (match logged_in s with None => Some false | v => v end)
    (match session_code s with None => Some "" | v => v end)
    (match user_info s with None => Some None | v => v end).

Inductive login_outcome : Type :=
| login_error (message : string)
| rerun.

(** [login_view] when "Log in" is pressed with [typed] in the input,
    lines 66-93. *)
Definition login_view (instructors : list instructor) (typed : string)
           (s : session_state) : login_outcome * session_state :=
  let code_ := strip typed in
  if String.eqb code_ "" then
    (login_error "Please enter a code.", s)
  else
    match filter (fun i => String.eqb (code i) code_) instructors with
    | found :: _ =>
        (rerun,
         mkSession (Some true) (Some (code found))
                   (Some (Some (mkUser (name found) (email found)))))
    | [] =>
        (login_error "Invalid code. Please check your code or contact the organizer.", s)
    end.

Inductive view : Type :=
| LoginView
| MainView.

(** [main], lines 587-606: which view is shown, and the session after
    [init_session_state]. *)
Definition main (s : session_state) : view * session_state :=
  let s := init_session_state s in
  match logged_in s with
  | Some true => (MainView, s)
  | _ => (LoginView, s)
  end.

(** The instructors of the tests. *)
Definition staff : list instructor :=
  [ mkInstructor "i1" (Some "Ada") (Some "ada@example.org");
    mkInstructor "i2" None None ].

(** Courses as loaded for one instructor: two of them have the same code and
    title. *)
Definition acct_in_person : course :=
  mkCourse "1" "i1" "ACCT 2001" "Accounting" "Fall" "" "In person" 40%Z.

Definition acct_online : course :=
  mkCourse "2" "i1" "ACCT 2001" "Accounting" "Fall" "" "Online synchronous" 25%Z.

Definition loaded_courses : list course :=
  [ acct_in_person;
    mkCourse "3" "i1" "ACCT 3001" "Auditing" "Spring" "" "" 0%Z;
    acct_online ].

(** * Properties *)

(** ** Binary64 numbers *)

Section Rounding.

Variables prec emax : Z.

Lemma shr_1_nonneg (mrs : shr_record) :
  (0 <= shr_m mrs)%Z -> (0 <= shr_m (shr_1 mrs))%Z.
Proof.
  destruct mrs as [m r s]. simpl.
  destruct m as [|[p|p|]|[p|p|]]; simpl; lia.
Qed.

Lemma iter_shr_1_nonneg (p : positive) (mrs : shr_record) :
  (0 <= shr_m mrs)%Z -> (0 <= shr_m (iter_pos shr_1 p mrs))%Z.
Proof.
  revert mrs. induction p as [p IH|p IH|]; intros mrs H; simpl.
  - apply IH, IH, shr_1_nonneg, H.
  - apply IH, IH, H.
  - apply shr_1_nonneg, H.
Qed.

Lemma shr_fexp_nonneg (m e : Z) (l : location) :
  (0 <= m)%Z -> (0 <= shr_m (fst (shr_fexp prec emax m e l)))%Z.
Proof.
  intros H. unfold shr_fexp, shr.
  assert (H0 : (0 <= shr_m (shr_record_of_loc m l))%Z).
  { destruct l as [|[ | | ]]; exact H. }
  destruct (fexp prec emax (Zdigits2 m + e) - e)%Z; simpl; try exact H0.
  apply iter_shr_1_nonneg, H0.
Qed.

Lemma round_nearest_even_nonneg (m : Z) (l : location) :
  (0 <= m)%Z -> (0 <= round_nearest_even m l)%Z.
Proof.
  intros H. destruct l as [|[ | | ]]; simpl; try lia.
  destruct (Z.even m); lia.
Qed.

(** Rounding a number never gives the result that is not a number. *)
Lemma binary_round_aux_not_nan (sx : bool) (mx ex : Z) (lx : location) :
  (0 <= mx)%Z -> binary_round_aux prec emax sx mx ex lx <> S754_nan.
Proof.
  intros H. unfold binary_round_aux.
  pose proof (shr_fexp_nonneg mx ex lx H) as H1.
  destruct (shr_fexp prec emax mx ex lx) as [mrs' e']. simpl in H1.
  pose proof (shr_fexp_nonneg _ e' loc_Exact
                (round_nearest_even_nonneg _ (loc_of_shr_record mrs') H1)) as H2.
  destruct (shr_fexp prec emax (round_nearest_even (shr_m mrs') (loc_of_shr_record mrs'))
                     e' loc_Exact) as [mrs'' e'']. simpl in H2.
  destruct (shr_m mrs''); try discriminate.
  - destruct (e'' <=? emax - prec)%Z; discriminate.
  - lia.
Qed.

(** The result of rounding has the sign that was given. *)
Lemma binary_round_aux_sign (sx : bool) (mx ex : Z) (lx : location) :
  (0 <= mx)%Z ->
  match binary_round_aux prec emax sx mx ex lx with
  | S754_zero s | S754_infinity s | S754_finite s _ _ => s = sx
  | S754_nan => False
  end.
Proof.
  intros H. pose proof (binary_round_aux_not_nan sx mx ex lx H) as Hn.
  revert Hn. unfold binary_round_aux.
  destruct (shr_fexp prec emax mx ex lx) as [mrs' e'].
  destruct (shr_fexp prec emax (round_nearest_even (shr_m mrs') (loc_of_shr_record mrs'))
                     e' loc_Exact) as [mrs'' e''].
  destruct (shr_m mrs'').
  - reflexivity.
  - destruct (e'' <=? emax - prec)%Z; reflexivity.
  - congruence.
Qed.

Lemma binary_normalize_not_nan (m e : Z) (szero : bool) :
  binary_normalize prec emax m e szero <> S754_nan.
Proof.
  destruct m; simpl; try discriminate; unfold binary_round;
    destruct (shl_align _ _ _); apply binary_round_aux_not_nan; lia.
Qed.

End Rounding.

Lemma is_nan_spec (x : float) :
  PrimFloat.is_nan x = true <-> Prim2SF x = S754_nan.
Proof.
  unfold PrimFloat.is_nan. rewrite eqb_spec. unfold SFeqb.
  destruct (Prim2SF x) as [s|s| |s m e]; simpl.
  - split; discriminate.
  - destruct s; split; discriminate.
  - tauto.
  - destruct s; rewrite Z.compare_refl, Pos.compare_cont_refl; simpl; split; discriminate.
Qed.

Lemma not_nan_spec (x : float) :
  PrimFloat.is_nan x = false <-> Prim2SF x <> S754_nan.
Proof.
  rewrite <- is_nan_spec. destruct (PrimFloat.is_nan x); split; congruence.
Qed.

(** Taking a finite number away from a number gives a number. *)
Lemma sub_finite_not_nan (x y : float) :
  PrimFloat.is_nan x = false ->
  (exists s m e, Prim2SF y = S754_finite s m e) ->
  PrimFloat.is_nan (x - y) = false.
Proof.
  intros Hx (s & m & e & Hy). apply not_nan_spec in Hx. apply not_nan_spec.
  rewrite sub_spec, Hy. unfold SF64sub.
  destruct (Prim2SF x) as [sx|sx| |sx mx ex]; simpl; try discriminate.
  - congruence.
  - apply binary_normalize_not_nan.
Qed.

Lemma abs_not_nan (x : float) :
  PrimFloat.is_nan x = false -> PrimFloat.is_nan (abs x) = false.
Proof.
  intros Hx. apply not_nan_spec in Hx. apply not_nan_spec.
  rewrite abs_spec. destruct (Prim2SF x); simpl; congruence.
Qed.

Lemma SFcompare_antisym (a b : spec_float) :
  SFcompare b a = option_map CompOpp (SFcompare a b).
Proof.
  destruct a as [s|s| |s m e], b as [s'|s'| |s' m' e']; simpl; try reflexivity;
    try (destruct s; reflexivity); try (destruct s'; reflexivity);
    try (destruct s, s'; reflexivity).
  destruct s, s'; try reflexivity;
    rewrite (Z.compare_antisym e' e);
    destruct (e' ?= e)%Z; simpl; try reflexivity;
    change (Pos.compare_cont Eq m' m) with (Pos.compare m' m);
    change (Pos.compare_cont Eq m m') with (Pos.compare m m');
    rewrite (Pos.compare_antisym m' m); destruct (Pos.compare m' m); reflexivity.
Qed.

Lemma SFcompare_some (a b : spec_float) :
  a <> S754_nan -> b <> S754_nan -> exists c, SFcompare a b = Some c.
Proof.
  intros Ha Hb.
  destruct a as [s|s| |s m e]; try congruence;
    destruct b as [s'|s'| |s' m' e']; try congruence; simpl; eauto.
Qed.

(** [x <= y] excludes [y < x]; between numbers the two are opposite. *)
Lemma leb_not_ltb (x y : float) :
  (x <=? y)%float = true -> (y <? x)%float = false.
Proof.
  rewrite ltb_spec, leb_spec. unfold SFltb, SFleb.
  rewrite (SFcompare_antisym (Prim2SF x) (Prim2SF y)).
  destruct (SFcompare (Prim2SF x) (Prim2SF y)) as [[ | | ]|]; simpl; congruence.
Qed.

Lemma not_ltb_leb (x y : float) :
  PrimFloat.is_nan x = false -> PrimFloat.is_nan y = false ->
  (y <? x)%float = false -> (x <=? y)%float = true.
Proof.
  intros Hx Hy. apply not_nan_spec in Hx, Hy.
  rewrite ltb_spec, leb_spec. unfold SFltb, SFleb.
  rewrite (SFcompare_antisym (Prim2SF x) (Prim2SF y)).
  destruct (SFcompare_some _ _ Hx Hy) as [c ->].
  destruct c; simpl; congruence.
Qed.

Lemma leb_not_nan (x y : float) :
  (x <=? y)%float = true -> PrimFloat.is_nan x = false.
Proof.
  rewrite leb_spec. intros H. apply not_nan_spec. intros Hx.
  rewrite Hx in H. discriminate.
Qed.

Lemma fillna_num_twice (v x : float) :
  PrimFloat.is_nan v = false -> fillna_num v (fillna_num v x) = fillna_num v x.
Proof.
  intros Hv. unfold fillna_num.
  destruct (PrimFloat.is_nan x) eqn:E; [now rewrite Hv | now rewrite E].
Qed.

Lemma fillna_num_not_nan (v x : float) :
  PrimFloat.is_nan v = false -> PrimFloat.is_nan (fillna_num v x) = false.
Proof.
  intros Hv. unfold fillna_num. destruct (PrimFloat.is_nan x) eqn:E; assumption.
Qed.

(** ** The tolerance of line 226 *)

Lemma deviation_not_nan (total : float) :
  PrimFloat.is_nan total = false -> PrimFloat.is_nan (deviation total) = false.
Proof.
  intros H. apply abs_not_nan, sub_finite_not_nan; [exact H|].
  do 3 eexists. vm_compute. reflexivity.
Qed.

Lemma within_not_outside (total : float) :
  within_tolerance total -> outside_tolerance total = false.
Proof. apply leb_not_ltb. Qed.

Lemma within_not_nan (total : float) :
  within_tolerance total -> PrimFloat.is_nan (deviation total) = false.
Proof. apply leb_not_nan. Qed.

(** For a total that is a number, the test of line 226 fails exactly when
    the total is within 0.5 of 100. *)
Lemma tolerance_iff (total : float) :
  PrimFloat.is_nan total = false ->
  (outside_tolerance total = false <-> within_tolerance total).
Proof.
  intros H. split; [|apply within_not_outside].
  apply not_ltb_leb; [now apply deviation_not_nan | reflexivity].
Qed.

(** ** Sums *)

(** More fuel than the length of the list changes nothing. *)
Lemma pairwise_sum_fuel (f g : nat) (a : list float) :
  (List.length a <= f + 128)%nat -> (List.length a <= g + 128)%nat ->
  pairwise_sum f a = pairwise_sum g a.
Proof.
  revert g a. induction f as [|f IH]; intros g a Hf Hg.
  - destruct g as [|g]; [reflexivity|]. cbn [pairwise_sum].
    destruct (List.length a <=? 128)%nat eqn:E; [reflexivity|].
    apply Nat.leb_gt in E. lia.
  - cbn [pairwise_sum]. destruct (List.length a <=? 128)%nat eqn:E.
    + destruct g as [|g]; [reflexivity|]. cbn [pairwise_sum]. now rewrite E.
    + apply Nat.leb_gt in E. destruct g as [|g]; [lia|].
      cbn [pairwise_sum]. apply Nat.leb_gt in E. rewrite E. apply Nat.leb_gt in E.
      set (n := List.length a) in *.
      set (n2 := (n / 2 - (n / 2) mod 8)%nat).
      assert (Hn2 : (0 < n2 < n)%nat).
      { subst n2.
        pose proof (Nat.div_mod_eq n 2) as H1.
        pose proof (Nat.mod_upper_bound n 2 ltac:(lia)) as H2.
        pose proof (Nat.mod_upper_bound (n / 2) 8 ltac:(lia)) as H3.
        lia. }
      f_equal; apply IH.
      * rewrite length_firstn. fold n. lia.
      * rewrite length_firstn. fold n. lia.
      * rewrite length_skipn. fold n. lia.
      * rewrite length_skipn. fold n. lia.
Qed.

(** Up to 128 numbers are summed as one block. *)
Lemma np_sum_block (a : list float) :
  a <> [] -> (List.length a <= 128)%nat -> np_sum a = ((-0) + block_sum a)%float.
Proof.
  intros Hne Hlen. destruct a as [|x a]; [congruence|].
  unfold np_sum. rewrite (pairwise_sum_fuel _ 0 (x :: a)) by lia. reflexivity.
Qed.


(** ** Numbers that are not negative *)

Lemma nonneg_spec (x : float) :
  nonneg x
  <-> match Prim2SF x with
      | S754_zero _ => True
      | S754_infinity s | S754_finite s _ _ => s = false
      | S754_nan => False
      end.
Proof.
  unfold nonneg. rewrite leb_spec.
  replace (Prim2SF 0) with (S754_zero false) by reflexivity.
  unfold SFleb, SFcompare.
  destruct (Prim2SF x) as [s|s| |s m e]; try destruct s; split;
    try tauto; try discriminate; reflexivity.
Qed.

Lemma nonneg_not_nan (x : float) : nonneg x -> PrimFloat.is_nan x = false.
Proof.
  rewrite nonneg_spec. intros H. apply not_nan_spec. intros E. now rewrite E in H.
Qed.

(** The sum of two numbers that are not negative is one: it is never the
    difference of two infinities. *)
Lemma add_nonneg (x y : float) : nonneg x -> nonneg y -> nonneg (x + y).
Proof.
  rewrite !nonneg_spec, add_spec. unfold SF64add, SFadd.
  destruct (Prim2SF x) as [sx|sx| |sx mx ex], (Prim2SF y) as [sy|sy| |sy my ey];
    intros Hx Hy; subst; try tauto; try reflexivity.
  - now destruct sx, sy.
  - cbn [cond_Zopp Z.add binary_normalize]. unfold binary_round.
    destruct (shl_align _ _ _) as [mz ez].
    pose proof (binary_round_aux_sign prec emax false (Zpos mz) ez loc_Exact
                  ltac:(lia)) as H.
    destruct (binary_round_aux _ _ _ _ _ _); (exact H || exact I).
Qed.

Lemma fold_add_nonneg (a : list float) (acc : float) :
  nonneg acc -> Forall nonneg a -> nonneg (fold_left PrimFloat.add a acc).
Proof.
  revert acc. induction a as [|x a IH]; intros acc Hacc Ha; [exact Hacc|].
  inversion Ha; subst. cbn [fold_left]. apply IH; [now apply add_nonneg | assumption].
Qed.

Lemma block_rest_nonneg (n : nat) :
  forall (a : list float) (r0 r1 r2 r3 r4 r5 r6 r7 : float),
    (List.length a <= n)%nat ->
    nonneg r0 -> nonneg r1 -> nonneg r2 -> nonneg r3 ->
    nonneg r4 -> nonneg r5 -> nonneg r6 -> nonneg r7 ->
    Forall nonneg a -> nonneg (block_rest r0 r1 r2 r3 r4 r5 r6 r7 a).
Proof.
  induction n as [|n IH]; intros a r0 r1 r2 r3 r4 r5 r6 r7 Hn H0 H1 H2 H3 H4 H5 H6 H7 Ha.
  - destruct a; [|simpl in Hn; lia]. cbn. repeat apply add_nonneg; assumption.
  - destruct a as [|x0 [|x1 [|x2 [|x3 [|x4 [|x5 [|x6 [|x7 rest]]]]]]]];
      try (cbn [block_rest]; apply fold_add_nonneg;
           [repeat apply add_nonneg; assumption | exact Ha]).
    cbn [block_rest].
    repeat match goal with
           | H : Forall nonneg (_ :: _) |- _ => inversion H; clear H; subst
           end.
    apply IH; try (apply add_nonneg; assumption); try assumption.
    simpl in Hn. lia.
Qed.

Lemma block_sum_nonneg (a : list float) : Forall nonneg a -> nonneg (block_sum a).
Proof.
  intros Ha. unfold block_sum.
  destruct a as [|x0 [|x1 [|x2 [|x3 [|x4 [|x5 [|x6 [|x7 rest]]]]]]]];
    try (apply fold_add_nonneg; [reflexivity | exact Ha]).
  repeat match goal with
         | H : Forall nonneg (_ :: _) |- _ => inversion H; clear H; subst
         end.
  apply (block_rest_nonneg (List.length rest)); auto.
Qed.

Lemma pairwise_sum_nonneg (fuel : nat) (a : list float) :
  Forall nonneg a -> nonneg (pairwise_sum fuel a).
Proof.
  revert a. induction fuel as [|fuel IH]; intros a Ha; cbn [pairwise_sum].
  - now apply block_sum_nonneg.
  - destruct (List.length a <=? 128)%nat; [now apply block_sum_nonneg|].
    set (n2 := (List.length a / 2 - (List.length a / 2) mod 8)%nat).
    rewrite <- (firstn_skipn n2 a) in Ha. apply Forall_app in Ha.
    destruct Ha as [Hf Hs]. apply add_nonneg; apply IH; assumption.
Qed.

Lemma np_sum_nonneg (a : list float) : Forall nonneg a -> nonneg (np_sum a).
Proof.
  intros Ha. unfold np_sum. destruct a as [|x a]; [reflexivity|].
  apply add_nonneg; [reflexivity | now apply pairwise_sum_nonneg].
Qed.

(** ** Columns *)

Lemma setitem_present (c : string) (f : row -> row) (df : DataFrame) :
  has_column c df = true ->
  setitem c f df = mkFrame (columns df) (map f (lines df)).
Proof.
  intros H. unfold setitem. now rewrite H.
Qed.

Lemma has_column_setitem (c c' : string) (f : row -> row) (df : DataFrame) :
  has_column c (setitem c' f df) = has_column c df || String.eqb c c'.
Proof.
  unfold setitem. destruct (has_column c' df) eqn:E; unfold has_column in *; cbn [columns].
  - destruct (String.eqb c c') eqn:Ec.
    + apply String.eqb_eq in Ec. subst c'. rewrite E. reflexivity.
    + now rewrite orb_false_r.
  - rewrite existsb_app. cbn [existsb]. now rewrite orb_false_r.
Qed.

Lemma matrix_columns_present (df : DataFrame) :
  has_matrix_columns df = true ->
  has_column "assessment_type" df = true
  /\ has_column "percent_of_class_assessment" df = true
  /\ has_column "ai_misuse_susceptibility" df = true
  /\ has_column "modification_level" df = true.
Proof.
  unfold has_matrix_columns, matrix_columns. cbn [forallb].
  rewrite !andb_true_iff. tauto.
Qed.

Lemma matrix_columns_accepted (df : DataFrame) :
  has_matrix_columns (accepted df) = has_matrix_columns df.
Proof. reflexivity. Qed.

(** ** Cells, joins *)

Lemma cell_eqb_eq (c : option string) (s : string) :
  cell_eqb c s = true <-> c = Some s.
Proof.
  destruct c as [v|]; simpl.
  - rewrite String.eqb_eq. split; congruence.
  - split; discriminate.
Qed.

Lemma matching_project (t : string) (data : list row) :
  matching t (map project_columns data) = map project_columns (matching t data).
Proof.
  unfold matching.
  induction data as [|r data IH]; simpl; [reflexivity|].
  destruct (cell_eqb (assessment_type r) t); simpl; now rewrite IH.
Qed.

Lemma matching_none (t : string) (data : list row) :
  (forall r, In r data -> assessment_type r <> Some t) -> matching t data = [].
Proof.
  unfold matching. induction data as [|r data IH]; intros H; simpl; [reflexivity|].
  destruct (cell_eqb (assessment_type r) t) eqn:E.
  - apply cell_eqb_eq in E. exfalso. apply (H r); [now left | exact E].
  - apply IH. intros r' Hr'. apply H. now right.
Qed.

Lemma matching_single (t : string) (data : list row) (r : row) :
  In r data -> assessment_type r = Some t ->
  (List.length (matching t data) <= 1)%nat -> matching t data = [r].
Proof.
  intros Hin Ht Hlen.
  assert (Hm : In r (matching t data)).
  { unfold matching. apply filter_In. split; [exact Hin|]. now apply cell_eqb_eq. }
  destruct (matching t data) as [|x [|y l]]; simpl in *.
  - contradiction.
  - destruct Hm as [->|[]]. reflexivity.
  - lia.
Qed.

Lemma join_one (df_db : list row) (t : string) :
  (List.length (matching t df_db) <= 1)%nat ->
  match matching t df_db with
  | [] => [blank t]
  | partners => map (set_assessment_type (Some t)) partners
  end = [joined_line df_db t].
Proof.
  unfold joined_line.
  destruct (matching t df_db) as [|x [|y l]]; cbn [List.length]; intros H.
  - reflexivity.
  - reflexivity.
  - lia.
Qed.

Lemma merge_left_joined (types : list string) (df_db : list row) :
  forallb (fun t => (List.length (matching t df_db) <=? 1)%nat) types = true ->
  merge_left types df_db = map (joined_line df_db) types.
Proof.
  unfold merge_left.
  induction types as [|t types IH]; intros H; [reflexivity|].
  cbn [forallb] in H. apply andb_true_iff in H. destruct H as [Ht Hts].
  apply Nat.leb_le in Ht.
  cbn [flat_map]. rewrite (IH Hts), map_cons, (join_one _ _ Ht). reflexivity.
Qed.

Lemma joined_line_type (df_db : list row) (t : string) :
  assessment_type (joined_line df_db t) = Some t.
Proof.
  unfold joined_line. destruct (matching t df_db); reflexivity.
Qed.

Lemma at_most_one_project (data : list row) :
  at_most_one_per_type data = true ->
  forallb (fun t => (List.length (matching t (map project_columns data)) <=? 1)%nat)
          ASSESSMENT_TYPES = true.
Proof.
  unfold at_most_one_per_type. rewrite !forallb_forall.
  intros H t Ht. rewrite matching_project, length_map. now apply H.
Qed.

Lemma reconcile_nonempty_joined (data : list row) :
  data <> [] -> at_most_one_per_type data = true ->
  reconcile data
  = matrix_of (map (joined_line (map project_columns data)) ASSESSMENT_TYPES).
Proof.
  intros Hne H. destruct data as [|r data]; [congruence|].
  unfold reconcile, matrix_of. f_equal. apply merge_left_joined.
  now apply at_most_one_project.
Qed.

Lemma reconcile_columns (data : list row) :
  columns (reconcile data) = matrix_columns.
Proof. destruct data; reflexivity. Qed.

Lemma load_returns (ic cc : string) (w : world) :
  fst (load_assessments_for_course ic cc w)
  = inr (reconcile (filter (keyed ic cc) (assessments (store w)))).
Proof. reflexivity. Qed.

(** ** Reconciliation *)

(** C1.  For every list of stored records in which no type of the registry
    is carried by more than one record (the key of a stored record is its
    instructor, course and type; the list may be empty, may lack types, and
    may hold records of types unknown to the registry), [reconcile] returns
    a frame of the four columns with exactly one line per registry entry, in
    registry order, and nothing else.  No store makes the load raise: it
    returns the reconciliation of the records of the pair. *)
Theorem reconcile_complete (data : list row) :
  at_most_one_per_type data = true ->
  map assessment_type (lines (reconcile data)) = map Some ASSESSMENT_TYPES
  /\ List.length (lines (reconcile data)) = List.length ASSESSMENT_TYPES
  /\ columns (reconcile data) = matrix_columns
  /\ forall ic cc w,
       fst (load_assessments_for_course ic cc w) = inr (reconcile (persisted ic cc w)).
Proof.
  intros H.
  assert (Hl : map assessment_type (lines (reconcile data)) = map Some ASSESSMENT_TYPES).
  { destruct data as [|r data].
    - reflexivity.
    - rewrite reconcile_nonempty_joined by (congruence || exact H).
      cbn [matrix_of lines]. rewrite map_map. apply map_ext. intros t.
      apply joined_line_type. }
  split; [exact Hl|]. split; [|split].
  - apply (f_equal (@List.length _)) in Hl. now rewrite !length_map in Hl.
  - apply reconcile_columns.
  - intros. apply load_returns.
Qed.

Lemma reconcile_complete_witness :
  at_most_one_per_type partial_with_unknown = true
  /\ map assessment_type (lines (reconcile partial_with_unknown))
     = map Some ASSESSMENT_TYPES
  /\ List.length (lines (reconcile partial_with_unknown)) = List.length ASSESSMENT_TYPES.
Proof.
  split; [reflexivity|].
  destruct (reconcile_complete partial_with_unknown eq_refl) as (Ht & Hl & _).
  split; [exact Ht | exact Hl].
Defined.

(** C3.  Without stored records the first registry type gets 100.0, every
    other type 0.0, both other numeric columns are 0.0 on every line; the
    percents sum to exactly 100 and the matrix passes the validation. *)
Theorem reconcile_empty_default :
  lines (reconcile [])
  = row_of T0 100 0 0 :: map (fun t => row_of t 0 0 0) (tl ASSESSMENT_TYPES)
  /\ columns (reconcile []) = matrix_columns
  /\ hd_error ASSESSMENT_TYPES = Some T0
  /\ series_sum (map percent_of_class_assessment (lines (reconcile []))) = 100%float
  /\ validate (reconcile []) = inr (reconcile []).
Proof.
  repeat split; vm_compute; reflexivity.
Qed.

(** C4, as the program has it.  For a non-empty list of stored records with
    at most one record per registry type, the line of a registry type that
    has a stored record carries the three stored values unchanged, and the
    line of a registry type without stored record has its three numeric
    cells missing (they are not set to 0.0 by the reconciliation). *)
Theorem reconcile_merge (data : list row) (i : nat) (t : string) :
  data <> [] ->
  at_most_one_per_type data = true ->
  nth_error ASSESSMENT_TYPES i = Some t ->
  (forall r, In r data -> assessment_type r = Some t ->
     nth_error (lines (reconcile data)) i
     = Some (mkRow None None (Some t) (percent_of_class_assessment r)
                   (ai_misuse_susceptibility r) (modification_level r)))
  /\ ((forall r, In r data -> assessment_type r <> Some t) ->
      nth_error (lines (reconcile data)) i = Some (mkRow None None (Some t) nan nan nan)).
Proof.
  intros Hne Hone Hi.
  rewrite (reconcile_nonempty_joined data Hne Hone). cbn [matrix_of lines].
  rewrite nth_error_map, Hi. cbn [option_map]. unfold joined_line.
  split.
  - intros r Hin Ht.
    assert (Hlen : (List.length (matching t (map project_columns data)) <= 1)%nat).
    { apply at_most_one_project in Hone.
      rewrite forallb_forall in Hone. apply Nat.leb_le, Hone.
      eapply nth_error_In; eauto. }
    rewrite (matching_single t (map project_columns data) (project_columns r)).
    + reflexivity.
    + now apply in_map.
    + exact Ht.
    + exact Hlen.
  - intros Hnone. rewrite matching_none; [reflexivity|].
    intros r' Hr'. apply in_map_iff in Hr'. destruct Hr' as (r & <- & Hr).
    apply (Hnone r Hr).
Qed.

Lemma reconcile_merge_witness :
  partial_with_unknown <> []
  /\ at_most_one_per_type partial_with_unknown = true
  /\ nth_error ASSESSMENT_TYPES 3 = Some T3
  /\ nth_error (lines (reconcile partial_with_unknown)) 3
     = Some (mkRow None None (Some T3) 40 10 20).
Proof.
  split; [discriminate|]. split; [reflexivity|]. split; [reflexivity|].
  apply (proj1 (reconcile_merge partial_with_unknown 3 T3
                  ltac:(discriminate) eq_refl eq_refl)
               (stored "i1" "c1" T3 40 10 20)).
  - left; reflexivity.
  - reflexivity.
Defined.

(** C4 as written fails on the registry types without stored record: their
    numeric cells are missing after the left join, not 0.0. *)
Lemma reconcile_missing_not_zero :
  exists r,
    nth_error (lines (reconcile [stored "i1" "c1" T0 100 0 0])) 1 = Some r
    /\ PrimFloat.is_nan (percent_of_class_assessment r) = true
    /\ PrimFloat.is_nan (ai_misuse_susceptibility r) = true
    /\ PrimFloat.is_nan (modification_level r) = true
    /\ ~ (percent_of_class_assessment r = 0%float
          /\ ai_misuse_susceptibility r = 0%float
          /\ modification_level r = 0%float).
Proof.
  eexists. split; [reflexivity|]. cbn.
  repeat split. intros [H _].
  apply (f_equal PrimFloat.is_nan) in H. vm_compute in H. discriminate.
Qed.

(** ** Validation *)

(** The total of line 223 is numpy's sum of the percent cells of the frame
    it was given, a missing cell counting for 0.0. *)
Lemma total_percent_cells (df : DataFrame) :
  total_percent df
  = np_sum (map (fun r => fillna_num 0 (percent_of_class_assessment r)) (lines df)).
Proof.
  unfold total_percent, normalize, series_sum. rewrite !map_map. f_equal.
  apply map_ext. intros r. cbn. now apply fillna_num_twice.
Qed.

(** Percents that are missing or not negative have a total that is a
    number, and not a negative one. *)
Lemma total_percent_number (df : DataFrame) :
  percents_not_negative df -> nonneg (total_percent df).
Proof.
  unfold percents_not_negative. intros H. rewrite total_percent_cells.
  apply np_sum_nonneg. apply Forall_map. revert H. apply Forall_impl.
  intros r [E|E]; unfold fillna_num.
  - rewrite E. reflexivity.
  - now rewrite (nonneg_not_nan _ E).
Qed.

(** The validation, case by case in the order of the source. *)
Lemma validate_cases (df : DataFrame) :
  validate df
  = if negb (has_column "assessment_type" df) then
      inl (KeyError ["assessment_type"])
    else if negb (has_column "percent_of_class_assessment" df) then
      inl (KeyError ["percent_of_class_assessment"])
    else if outside_tolerance (total_percent df) then
      inl (ValueError (percent_sum_message (total_percent df)))
    else if negb (has_column "ai_misuse_susceptibility" df) then
      inl (KeyError ["ai_misuse_susceptibility"])
    else if negb (has_column "modification_level" df) then
      inl (KeyError ["modification_level"])
    else inr (accepted df).
Proof.
  unfold validate.
  destruct (has_column "assessment_type" df) eqn:H1; cbn [negb]; [|reflexivity].
  rewrite (setitem_present _ _ _ H1).
  change (has_column "percent_of_class_assessment"
            (mkFrame (columns df) (map strip_label (lines df))))
    with (has_column "percent_of_class_assessment" df).
  destruct (has_column "percent_of_class_assessment" df) eqn:H2; cbn [negb];
    [|reflexivity].
  rewrite setitem_present by exact H2. cbn [lines columns].
  change (series_sum
            (map percent_of_class_assessment
                 (map fill_percent (map strip_label (lines df)))))
    with (total_percent df).
  change (0.5 <? abs (total_percent df - 100))%float
    with (outside_tolerance (total_percent df)).
  destruct (outside_tolerance (total_percent df)); [reflexivity|].
  change (has_column "ai_misuse_susceptibility"
            (mkFrame (columns df) (map fill_percent (map strip_label (lines df)))))
    with (has_column "ai_misuse_susceptibility" df).
  destruct (has_column "ai_misuse_susceptibility" df) eqn:H3; cbn [negb];
    [|reflexivity].
  rewrite setitem_present by exact H3. cbn [lines columns].
  change (has_column "modification_level"
            (mkFrame (columns df)
               (map fill_ai (map fill_percent (map strip_label (lines df))))))
    with (has_column "modification_level" df).
  destruct (has_column "modification_level" df) eqn:H4; cbn [negb]; [|reflexivity].
  rewrite setitem_present by exact H4. reflexivity.
Qed.

Lemma validate_ok (df : DataFrame) :
  has_matrix_columns df = true ->
  outside_tolerance (total_percent df) = false ->
  validate df = inr (accepted df).
Proof.
  intros Hc Ht. apply matrix_columns_present in Hc. destruct Hc as (H1 & H2 & H3 & H4).
  rewrite validate_cases, H1, H2, H3, H4, Ht. reflexivity.
Qed.

Lemma validate_err (df : DataFrame) :
  has_column "assessment_type" df = true ->
  has_column "percent_of_class_assessment" df = true ->
  outside_tolerance (total_percent df) = true ->
  validate df = inl (ValueError (percent_sum_message (total_percent df))).
Proof.
  intros H1 H2 Ht. rewrite validate_cases, H1, H2, Ht. reflexivity.
Qed.

(** What a successful validation tells. *)
Lemma validate_inr (df m : DataFrame) :
  validate df = inr m ->
  has_matrix_columns df = true
  /\ outside_tolerance (total_percent df) = false
  /\ m = accepted df.
Proof.
  rewrite validate_cases. unfold has_matrix_columns, matrix_columns. cbn [forallb].
  destruct (has_column "assessment_type" df); cbn [negb]; [|discriminate].
  destruct (has_column "percent_of_class_assessment" df); cbn [negb]; [|discriminate].
  destruct (outside_tolerance (total_percent df)); [discriminate|].
  destruct (has_column "ai_misuse_susceptibility" df); cbn [negb]; [|discriminate].
  destruct (has_column "modification_level" df); cbn [negb]; [|discriminate].
  intros H. injection H as <-. repeat split.
Qed.

(** C2, as the program has it.  For a frame that has the four columns of
    the matrix, the total is numpy's binary64 sum of the percent cells, a
    missing cell counting for 0.0.  The validation succeeds if and only if
    the test [abs(total - 100.0) > 0.5] of line 226 is false, which for a
    total that is a number says that the total is within 0.5 of 100, the
    difference being the binary64 one; the total is a number whenever the
    percent cells are missing or not negative.  When the validation fails,
    the error is a [ValueError] whose message shows the total rounded to one
    decimal place. *)
Theorem validate_boundary (df : DataFrame) :
  has_matrix_columns df = true ->
  total_percent df
  = np_sum (map (fun r => fillna_num 0 (percent_of_class_assessment r)) (lines df))
  /\ ((exists m, validate df = inr m) <-> outside_tolerance (total_percent df) = false)
  /\ (PrimFloat.is_nan (total_percent df) = false ->
      ((exists m, validate df = inr m) <-> within_tolerance (total_percent df)))
  /\ (percents_not_negative df ->
      ((exists m, validate df = inr m) <-> within_tolerance (total_percent df)))
  /\ (outside_tolerance (total_percent df) = true ->
      validate df = inl (ValueError (percent_sum_message (total_percent df))))
  /\ (forall e, validate df = inl e ->
      outside_tolerance (total_percent df) = true
      /\ e = ValueError
               ("The 'Percent of class assessment' values must sum to 100. "
                ++ "Right now they sum to " ++ format_1f (total_percent df)
                ++ ". Please adjust the numbers and try again.")).
Proof.
  intros Hc.
  assert (Hiff : (exists m, validate df = inr m)
                 <-> outside_tolerance (total_percent df) = false).
  { split.
    - intros [m Hm]. apply validate_inr in Hm. tauto.
    - intros H. eexists. apply (validate_ok df Hc H). }
  split; [apply total_percent_cells|]. split; [exact Hiff|]. split; [|split; [|split]].
  - intros Hn. rewrite Hiff. now apply tolerance_iff.
  - intros Hp. rewrite Hiff. now apply tolerance_iff, nonneg_not_nan, total_percent_number.
  - intros H. apply matrix_columns_present in Hc. apply validate_err; tauto.
  - intros e He. destruct (outside_tolerance (total_percent df)) eqn:Ht.
    + apply matrix_columns_present in Hc.
      rewrite validate_err in He by tauto. injection He as <-. split; reflexivity.
    + rewrite (validate_ok df Hc Ht) in He. discriminate.
Qed.

Lemma validate_boundary_witness :
  has_matrix_columns scenario_edited = true
  /\ total_percent scenario_edited = 110%float
  /\ validate scenario_edited
     = inl (ValueError
              ("The 'Percent of class assessment' values must sum to 100. "
               ++ "Right now they sum to 110.0"
               ++ ". Please adjust the numbers and try again.")).
Proof.
  split; [reflexivity|]. split; [reflexivity|].
  exact (proj1 (proj2 (proj2 (proj2 (proj2 (validate_boundary scenario_edited eq_refl)))))
               eq_refl).
Defined.

(** C2 as written fails on "the exact observed sum": the totals 110.25 and
    110.1875 raise the same error, which shows 110.2, so the total cannot be
    read back from the error. *)
Lemma error_hides_exact_sum :
  total_percent total_110_25 = 110.25%float
  /\ total_percent total_110_1875 = 110.1875%float
  /\ validate total_110_25
     = inl (ValueError
              ("The 'Percent of class assessment' values must sum to 100. "
               ++ "Right now they sum to 110.2"
               ++ ". Please adjust the numbers and try again."))
  /\ validate total_110_1875 = validate total_110_25
  /\ ~ (exists recover : exn -> float,
          forall df e,
            has_matrix_columns df = true ->
            validate df = inl e -> recover e = total_percent df).
Proof.
  split; [reflexivity|]. split; [reflexivity|]. split; [reflexivity|].
  split; [reflexivity|].
  intros [recover H].
  set (e := ValueError
              ("The 'Percent of class assessment' values must sum to 100. "
               ++ "Right now they sum to 110.2"
               ++ ". Please adjust the numbers and try again.")).
  assert (H1 : recover e = total_percent total_110_25)
    by (apply H; reflexivity).
  assert (H2 : recover e = total_percent total_110_1875)
    by (apply H; reflexivity).
  rewrite H1 in H2.
  apply (f_equal (fun x => (x <? 110.21875)%float)) in H2.
  vm_compute in H2. discriminate.
Qed.

(** The message shows other totals as Python does: 89.75 is shown as 89.8,
    the tie going to the even digit. *)
Example message_of_89_75 :
  total_percent total_89_75 = 89.75%float
  /\ validate total_89_75
     = inl (ValueError
              ("The 'Percent of class assessment' values must sum to 100. "
               ++ "Right now they sum to 89.8"
               ++ ". Please adjust the numbers and try again.")).
Proof. split; reflexivity. Qed.

(** The total is the binary64 one: the percents 50.25, 50.25 and 2^-60 have
    a sum above 100.5 as rational numbers, their binary64 sum is 100.5, and
    the frame is accepted. *)
Example rounded_total_accepted :
  total_percent rounded_down = 100.5%float
  /\ validate rounded_down = inr (accepted rounded_down).
Proof. split; reflexivity. Qed.

(** A total that is not a number passes the test of line 226. *)
Example nan_total_accepted :
  PrimFloat.is_nan (total_percent total_nan) = true
  /\ validate total_nan = inr (accepted total_nan)
  /\ ~ within_tolerance (total_percent total_nan).
Proof.
  split; [reflexivity|]. split; [reflexivity|].
  unfold within_tolerance. vm_compute. discriminate.
Qed.

(** The scenario of the specification. *)
Example scenario_valid :
  List.length (lines (reconcile scenario_stored)) = 11%nat
  /\ validate (reconcile scenario_stored) = inr (accepted (reconcile scenario_stored)).
Proof.
  split; reflexivity.
Qed.

(** C9.  The validation has no bound on single values: for a frame that has
    the four columns of the matrix and whose percents sum within 0.5 of 100,
    it succeeds, the values of the two other numeric columns are kept
    whatever they are, and their missing cells become 0.0. *)
Theorem validate_no_bounds (df : DataFrame) :
  has_matrix_columns df = true ->
  within_tolerance (total_percent df) ->
  exists m,
    validate df = inr m
    /\ map ai_misuse_susceptibility (lines m)
       = map (fun r => fillna_num 0 (ai_misuse_susceptibility r)) (lines df)
    /\ map modification_level (lines m)
       = map (fun r => fillna_num 0 (modification_level r)) (lines df).
Proof.
  intros Hc H. exists (accepted df).
  split; [apply (validate_ok df Hc), within_not_outside, H|].
  unfold accepted, fill_defaults, normalize. cbn [lines].
  rewrite !map_map. split; reflexivity.
Qed.

Lemma validate_no_bounds_witness :
  has_matrix_columns out_of_range = true
  /\ within_tolerance (total_percent out_of_range)
  /\ exists m,
       validate out_of_range = inr m
       /\ map ai_misuse_susceptibility (lines m) = [250; 0; -1]%float
       /\ map modification_level (lines m) = [-7; 1000; 0]%float.
Proof.
  split; [reflexivity|]. split; [reflexivity|].
  exact (validate_no_bounds out_of_range eq_refl eq_refl).
Defined.

(** The tolerance is the one of the binary64 total: these percents have a
    sum below 100.5 as rational numbers, their binary64 total is above
    100.5, and the validation fails. *)
Example rounded_total_refused :
  let df := matrix_of [row_of T0 50.125 0 0; row_of T3 50.125 0 0;
                       row_of "a" 0x1.002p-47 0 0; row_of "b" 0x1.002p-47 0 0;
                       row_of "c" 0x1.002p-47 0 0; row_of "d" 0x1.ffffffffffcp-3 0 0] in
  (total_percent df =? 100.5 + 0x1p-46)%float = true
  /\ exists e, validate df = inl e.
Proof. cbv zeta. split; [reflexivity|]. eexists. reflexivity. Qed.

(** ** Persistence *)

Lemma keyed_records (ic cc : string) (l : list row) :
  forallb (keyed ic cc) (records ic cc l) = true.
Proof.
  unfold records. rewrite map_map. apply forallb_forall.
  intros r Hr. apply in_map_iff in Hr. destruct Hr as (r0 & <- & _).
  unfold keyed. simpl. now rewrite !String.eqb_refl.
Qed.

Lemma filter_negb_nil {A : Type} (f : A -> bool) (l : list A) :
  filter f (filter (fun x => negb (f x)) l) = [].
Proof.
  induction l as [|x l IH]; simpl; [reflexivity|].
  destruct (f x) eqn:E; simpl; [exact IH|]. now rewrite E.
Qed.

Lemma filter_negb_all {A : Type} (f : A -> bool) (l : list A) :
  forallb f l = true -> filter (fun x => negb (f x)) l = [].
Proof.
  induction l as [|x l IH]; simpl; [reflexivity|].
  intros H. apply andb_true_iff in H. destruct H as [Hx Hl].
  rewrite Hx. simpl. now apply IH.
Qed.

Lemma filter_negb_idem {A : Type} (f : A -> bool) (l : list A) :
  filter (fun x => negb (f x)) (filter (fun x => negb (f x)) l)
  = filter (fun x => negb (f x)) l.
Proof.
  apply forallb_filter_id. apply forallb_filter.
Qed.

(** The records of a frame that has the four columns of the matrix. *)
Lemma to_records_ok (ic cc : string) (df : DataFrame) :
  has_matrix_columns df = true ->
  to_records ic cc df = inr (records ic cc (lines df)).
Proof.
  intros Hc. apply matrix_columns_present in Hc. destruct Hc as (H1 & H2 & H3 & H4).
  unfold to_records, select_columns, cols. cbn [filter].
  rewrite !has_column_setitem, H1, H2, H3, H4.
  simpl (_ =? _)%string. rewrite !orb_true_r. reflexivity.
Qed.

(** A frame that lacks one of them has no records: [df[cols]] raises. *)
Lemma to_records_missing (ic cc : string) (df : DataFrame) :
  has_matrix_columns df = false ->
  exists c missing, to_records ic cc df = inl (KeyError (c :: missing)).
Proof.
  unfold has_matrix_columns, matrix_columns. cbn [forallb]. intros Hc.
  unfold to_records, select_columns, cols. cbn [filter].
  rewrite !has_column_setitem. simpl (_ =? _)%string.
  rewrite !orb_true_r, !orb_false_r. cbn [negb].
  destruct (has_column "assessment_type" df),
           (has_column "percent_of_class_assessment" df),
           (has_column "ai_misuse_susceptibility" df),
           (has_column "modification_level" df);
    try discriminate Hc; cbn; eauto.
Qed.

(** The store after the two queries of lines 249-252. *)
Lemma replaceAll_run (ic cc : string) (df : DataFrame) (w : world) :
  has_matrix_columns df = true ->
  replaceAll ic cc df w
  = (inr tt,
     mkWorld
       (mkDb (filter (fun r => negb (keyed ic cc r)) (assessments (store w))
              ++ records ic cc (lines df))
             (courses (store w)))
       (executed w ++ [DeleteAssessments ic cc;
                       InsertAssessments (records ic cc (lines df))])).
Proof.
  intros Hc.
  unfold replaceAll, bind, lift, delete_assessments, insert_assessments.
  rewrite (to_records_ok ic cc df Hc). simpl.
  now rewrite <- app_assoc.
Qed.

Lemma replaceAll_raises (ic cc : string) (df : DataFrame) (w : world) :
  has_matrix_columns df = false ->
  exists c missing, replaceAll ic cc df w = (inl (KeyError (c :: missing)), w).
Proof.
  intros Hc. destruct (to_records_missing ic cc df Hc) as (c & missing & H).
  exists c, missing. unfold replaceAll, bind, lift. now rewrite H.
Qed.

Lemma persisted_replaceAll (ic cc : string) (df : DataFrame) (w : world) :
  has_matrix_columns df = true ->
  persisted ic cc (snd (replaceAll ic cc df w)) = records ic cc (lines df).
Proof.
  intros Hc. rewrite replaceAll_run by exact Hc. unfold persisted. simpl.
  rewrite filter_app, filter_negb_nil. simpl.
  apply forallb_filter_id, keyed_records.
Qed.

Lemma save_valid (ic cc : string) (df : DataFrame) (w : world) :
  has_matrix_columns df = true ->
  outside_tolerance (total_percent df) = false ->
  save_assessments_for_course ic cc df w = replaceAll ic cc (accepted df) w.
Proof.
  intros Hc H. unfold save_assessments_for_course, bind, lift.
  now rewrite (validate_ok df Hc H).
Qed.

Lemma save_invalid (ic cc : string) (df : DataFrame) (w : world) :
  has_column "assessment_type" df = true ->
  has_column "percent_of_class_assessment" df = true ->
  outside_tolerance (total_percent df) = true ->
  save_assessments_for_course ic cc df w
  = (inl (ValueError (percent_sum_message (total_percent df))), w).
Proof.
  intros H1 H2 H. unfold save_assessments_for_course, bind, lift.
  now rewrite (validate_err df H1 H2 H).
Qed.

(** Whatever the save raises, it raises before the first query. *)
Lemma save_raises (ic cc : string) (df : DataFrame) (w : world) (e : exn) :
  fst (save_assessments_for_course ic cc df w) = inl e ->
  save_assessments_for_course ic cc df w = (inl e, w).
Proof.
  unfold save_assessments_for_course, bind, lift.
  destruct (validate df) as [e'|m] eqn:Hv.
  - simpl. now intros [= ->].
  - apply validate_inr in Hv. destruct Hv as (Hc & _ & ->).
    cbn [ret]. rewrite replaceAll_run by exact Hc. discriminate.
Qed.

Lemma save_success (ic cc : string) (df : DataFrame) (w w' : world) :
  save_assessments_for_course ic cc df w = (inr tt, w') ->
  has_matrix_columns df = true
  /\ outside_tolerance (total_percent df) = false
  /\ w' = snd (replaceAll ic cc (accepted df) w).
Proof.
  intros Hs. unfold save_assessments_for_course, bind, lift in Hs.
  destruct (validate df) as [e|m] eqn:Hv; [discriminate|].
  apply validate_inr in Hv. destruct Hv as (Hc & Ht & ->).
  split; [exact Hc|]. split; [exact Ht|]. cbn [ret] in Hs. now rewrite Hs.
Qed.

(** C5.  A frame that has the label and the percent column and whose
    percents sum outside the tolerance (the test of line 226 on the binary64
    total) makes the save raise the validation error before any query is
    sent: no delete and no insert is executed and the store is what it
    was. *)
Theorem save_invalid_no_effect (ic cc : string) (df : DataFrame) (w : world) :
  has_column "assessment_type" df = true ->
  has_column "percent_of_class_assessment" df = true ->
  outside_tolerance (total_percent df) = true ->
  fst (save_assessments_for_course ic cc df w)
  = inl (ValueError (percent_sum_message (total_percent df)))
  /\ snd (save_assessments_for_course ic cc df w) = w
  /\ executed (snd (save_assessments_for_course ic cc df w)) = executed w
  /\ persisted ic cc (snd (save_assessments_for_course ic cc df w)) = persisted ic cc w.
Proof.
  intros H1 H2 H. rewrite (save_invalid ic cc df w H1 H2 H). simpl. repeat split.
Qed.

Lemma save_invalid_no_effect_witness :
  has_column "assessment_type" scenario_edited = true
  /\ has_column "percent_of_class_assessment" scenario_edited = true
  /\ outside_tolerance (total_percent scenario_edited) = true
  /\ snd (save_assessments_for_course "i1" "c1" scenario_edited busy_world) = busy_world.
Proof.
  split; [reflexivity|]. split; [reflexivity|]. split; [reflexivity|].
  exact (proj1 (proj2 (save_invalid_no_effect "i1" "c1" scenario_edited busy_world
                         eq_refl eq_refl eq_refl))).
Defined.

(** C6.  For a frame that has the four columns of the matrix, replacing
    twice with the same pair and matrix leaves the store as replacing once
    does, and after a replacement the records of the pair are exactly the
    lines given, each once, in the order given, with nothing left of what
    the pair had before; the records of other pairs are untouched.  A frame
    that lacks one of the columns makes the replacement raise [KeyError]
    before any query, each time. *)
Theorem replaceAll_idempotent (ic cc : string) (df : DataFrame) (w : world) :
  let w1 := snd (replaceAll ic cc df w) in
  let w2 := snd (replaceAll ic cc df w1) in
  if has_matrix_columns df then
    fst (replaceAll ic cc df w) = inr tt
    /\ fst (replaceAll ic cc df w1) = inr tt
    /\ store w2 = store w1
    /\ persisted ic cc w1 = records ic cc (lines df)
    /\ map project_columns (persisted ic cc w1) = map project_columns (lines df)
    /\ filter (fun r => negb (keyed ic cc r)) (assessments (store w1))
       = filter (fun r => negb (keyed ic cc r)) (assessments (store w))
  else
    exists c missing,
      replaceAll ic cc df w = (inl (KeyError (c :: missing)), w)
      /\ replaceAll ic cc df w1 = (inl (KeyError (c :: missing)), w).
Proof.
  cbv zeta. destruct (has_matrix_columns df) eqn:Hc.
  - split; [now rewrite replaceAll_run|].
    split; [now rewrite replaceAll_run|].
    split; [|split; [|split]].
    + rewrite !replaceAll_run by exact Hc. simpl.
      rewrite filter_app, filter_negb_idem.
      rewrite (filter_negb_all (keyed ic cc) (records ic cc (lines df))
                 (keyed_records ic cc (lines df))).
      now rewrite app_nil_r.
    + now apply persisted_replaceAll.
    + rewrite persisted_replaceAll by exact Hc. unfold records. rewrite !map_map.
      apply map_ext. intros r. reflexivity.
    + rewrite replaceAll_run by exact Hc. simpl.
      rewrite filter_app, filter_negb_idem.
      rewrite (filter_negb_all (keyed ic cc) (records ic cc (lines df))
                 (keyed_records ic cc (lines df))).
      now rewrite app_nil_r.
  - destruct (replaceAll_raises ic cc df w Hc) as (c & missing & H).
    exists c, missing. rewrite H. split; [reflexivity|exact H].
Qed.

(** C7.  Deleting a course first deletes every assessment record of the
    pair, the course record being still there, then deletes the course
    record: the table of courses afterwards holds the courses it held except
    those of that id and instructor.  Afterwards the pair has no record left
    and loading its matrix returns the default of the empty input. *)
Theorem delete_course_cascade (course_id ic cc : string) (w : world) :
  let w1 := snd (delete_assessments ic cc w) in
  let w2 := snd (delete_course_for_instructor course_id ic cc w) in
  executed w2 = executed w ++ [DeleteAssessments ic cc; DeleteCourse course_id ic]
  /\ persisted ic cc w1 = [] /\ courses (store w1) = courses (store w)
  /\ w2 = snd (delete_course course_id ic w1)
  /\ courses (store w2)
     = filter (fun c => negb (String.eqb (id c) course_id
                              && String.eqb (course_instructor_code c) ic))
              (courses (store w))
  /\ (forall c, In c (courses (store w2))
                <-> In c (courses (store w))
                    /\ ~ (id c = course_id /\ course_instructor_code c = ic))
  /\ assessments (store w2)
     = filter (fun r => negb (keyed ic cc r)) (assessments (store w))
  /\ persisted ic cc w2 = []
  /\ fst (load_assessments_for_course ic cc w2) = inr (reconcile [])
  /\ reconcile [] = default_matrix.
Proof.
  cbv zeta.
  assert (Hgone : persisted ic cc (snd (delete_course_for_instructor course_id ic cc w)) = []).
  { unfold persisted. simpl. apply filter_negb_nil. }
  split; [simpl; now rewrite <- app_assoc|].
  split; [unfold persisted; simpl; apply filter_negb_nil|].
  split; [reflexivity|].
  split; [reflexivity|].
  split; [reflexivity|].
  split.
  { intros c. simpl. rewrite filter_In. unfold course_keyed, owned_by.
    rewrite negb_true_iff, andb_false_iff, <- !not_true_iff_false, !String.eqb_eq.
    split.
    - intros [Hin H]. split; [exact Hin|]. tauto.
    - intros [Hin H]. split; [exact Hin|].
      destruct (String.eqb_spec (id c) course_id); [right|left]; tauto. }
  split; [reflexivity|].
  split; [exact Hgone|].
  split; [|reflexivity].
  rewrite load_returns. unfold persisted in Hgone. now rewrite Hgone.
Qed.

Lemma strip_registry : map strip ASSESSMENT_TYPES = ASSESSMENT_TYPES.
Proof. reflexivity. Qed.





(** C10.  A successful save sends one delete for the pair and one insert;
    every record it inserts carries the instructor code and the course code
    passed as arguments, whatever the lines of the frame held in these two
    columns, and the store afterwards is the records of the other pairs
    followed by the inserted ones. *)
Theorem save_rows_keyed (ic cc : string) (df : DataFrame) (w w' : world) :
  save_assessments_for_course ic cc df w = (inr tt, w') ->
  exists rows,
    executed w' = executed w ++ [DeleteAssessments ic cc; InsertAssessments rows]
    /\ assessments (store w')
       = filter (fun r => negb (keyed ic cc r)) (assessments (store w)) ++ rows
    /\ List.length rows = List.length (lines df)
    /\ Forall (fun r => instructor_code r = Some ic /\ course_code r = Some cc) rows.
Proof.
  intros Hs. apply save_success in Hs. destruct Hs as (Hc & _ & ->).
  exists (records ic cc (lines (accepted df))).
  rewrite replaceAll_run by exact Hc. simpl.
  split; [reflexivity|]. split; [reflexivity|]. split.
  - unfold records, fill_defaults, normalize. now rewrite !length_map.
  - apply Forall_forall. intros r Hr. unfold records in Hr.
    rewrite map_map in Hr. apply in_map_iff in Hr. destruct Hr as (r0 & <- & _).
    split; reflexivity.
Qed.

Lemma save_rows_keyed_witness :
  let w' := snd (save_assessments_for_course "i1" "c1" out_of_range busy_world) in
  map instructor_code (lines out_of_range) = [Some "i2"; Some "i2"; None]
  /\ save_assessments_for_course "i1" "c1" out_of_range busy_world = (inr tt, w')
  /\ exists rows,
       executed w' = executed busy_world
                     ++ [DeleteAssessments "i1" "c1"; InsertAssessments rows]
       /\ assessments (store w')
          = filter (fun r => negb (keyed "i1" "c1" r)) (assessments (store busy_world))
            ++ rows
       /\ List.length rows = List.length (lines out_of_range)
       /\ Forall (fun r => instructor_code r = Some "i1" /\ course_code r = Some "c1") rows.
Proof.
  cbv zeta.
  split; [reflexivity|]. split; [reflexivity|].
  apply (save_rows_keyed "i1" "c1" out_of_range busy_world). reflexivity.
Defined.

(** * Further properties of the program *)

(** ** Strings *)

Section StripFront.

Variable p1 : ascii -> bool.
Variable p2 : ascii -> ascii -> bool.
Variable p3 : ascii -> ascii -> ascii -> bool.

(** What is left begins with no character to remove, and is the end of the
    list that was given. *)
Lemma strip_front_bounded (n : nat) (s : list ascii) :
  (List.length s <= n)%nat ->
  clean p1 p2 p3 (strip_front p1 p2 p3 s)
  /\ exists pre, s = pre ++ strip_front p1 p2 p3 s.
Proof.
  revert s. induction n as [|n IH]; intros s Hn.
  - destruct s; [|simpl in Hn; lia]. split; [exact I|]. now exists [].
  - destruct s as [|a s1]; [split; [exact I|]; now exists []|].
    cbn [strip_front]. destruct (p1 a) eqn:E1.
    { destruct (IH s1) as [Hc [pre Hp]]; [simpl in Hn; lia|].
      split; [exact Hc|]. exists (a :: pre). cbn [app]. now rewrite <- Hp. }
    destruct s1 as [|b s2].
    { split; [cbn; now rewrite E1|]. now exists []. }
    destruct (p2 a b) eqn:E2.
    { destruct (IH s2) as [Hc [pre Hp]]; [simpl in Hn; lia|].
      split; [exact Hc|]. exists (a :: b :: pre). cbn [app]. now rewrite <- Hp. }
    destruct s2 as [|c s3].
    { split; [cbn; now rewrite E1, E2|]. now exists []. }
    destruct (p3 a b c) eqn:E3.
    { destruct (IH s3) as [Hc [pre Hp]]; [simpl in Hn; lia|].
      split; [exact Hc|]. exists (a :: b :: c :: pre). cbn [app]. now rewrite <- Hp. }
    split; [cbn; now rewrite E1, E2, E3|]. now exists [].
Qed.

Lemma strip_front_clean (s : list ascii) :
  clean p1 p2 p3 (strip_front p1 p2 p3 s).
Proof. exact (proj1 (strip_front_bounded (List.length s) s (le_n _))). Qed.

Lemma strip_front_suffix (s : list ascii) :
  exists pre, s = pre ++ strip_front p1 p2 p3 s.
Proof. exact (proj2 (strip_front_bounded (List.length s) s (le_n _))). Qed.

Lemma strip_front_fixed (s : list ascii) :
  clean p1 p2 p3 s -> strip_front p1 p2 p3 s = s.
Proof.
  destruct s as [|a [|b [|c s3]]]; cbn.
  - reflexivity.
  - now intros [-> _].
  - now intros [-> [-> _]].
  - now intros [-> [-> ->]].
Qed.

Lemma clean_prefix (u v : list ascii) :
  clean p1 p2 p3 (u ++ v) -> clean p1 p2 p3 u.
Proof.
  destruct u as [|a [|b [|c u]]]; cbn.
  - trivial.
  - tauto.
  - tauto.
  - tauto.
Qed.

End StripFront.

Lemma rstrip_bytes_prefix (s : list ascii) :
  exists suf, s = rstrip_bytes s ++ suf.
Proof.
  unfold rstrip_bytes.
  destruct (strip_front_suffix space1 (fun a b => space2 b a)
              (fun a b c => space3 c b a) (rev s)) as [pre H].
  exists (rev pre). rewrite <- rev_app_distr, <- H. now rewrite rev_involutive.
Qed.

Lemma rstrip_bytes_idempotent (s : list ascii) :
  rstrip_bytes (rstrip_bytes s) = rstrip_bytes s.
Proof.
  unfold rstrip_bytes. rewrite rev_involutive.
  now rewrite strip_front_fixed by apply strip_front_clean.
Qed.

Lemma lstrip_rstrip_lstrip (s : list ascii) :
  lstrip_bytes (rstrip_bytes (lstrip_bytes s)) = rstrip_bytes (lstrip_bytes s).
Proof.
  apply strip_front_fixed.
  destruct (rstrip_bytes_prefix (lstrip_bytes s)) as [suf H].
  apply (clean_prefix _ _ _ _ suf). rewrite <- H. apply strip_front_clean.
Qed.

(** Stripping twice is stripping once. *)
Lemma strip_idempotent (s : string) : strip (strip s) = strip s.
Proof.
  unfold strip. rewrite list_ascii_of_string_of_list_ascii.
  now rewrite lstrip_rstrip_lstrip, rstrip_bytes_idempotent.
Qed.

(** The characters removed are those of Python: a no-break space and an
    ideographic space go, a letter with a diaeresis stays. *)
Example strip_unicode :
  strip (no_break_space ++ " i1" ++ ideographic_space ++ " ") = "i1"
  /\ strip no_break_space = ""
  /\ strip (String (ascii_of_nat 195) (String (ascii_of_nat 160) ""))
     = String (ascii_of_nat 195) (String (ascii_of_nat 160) "").
Proof. repeat split. Qed.

(** ** Accepted frames *)

Lemma distinct_NoDup (l : list string) : distinct l = true -> NoDup l.
Proof.
  induction l as [|x l IH]; simpl; intros H; [constructor|].
  apply andb_true_iff in H. destruct H as [Hx Hl].
  constructor; [|now apply IH].
  intros Hin. apply negb_true_iff in Hx.
  assert (existsb (String.eqb x) l = true); [|congruence].
  apply existsb_exists. exists x. split; [exact Hin | apply String.eqb_refl].
Qed.

Lemma registry_NoDup : NoDup ASSESSMENT_TYPES.
Proof. apply distinct_NoDup. reflexivity. Qed.

(** What the validation does to one line. *)
Lemma accepted_line (l : list row) :
  fill_defaults (normalize l)
  = map (fun r => mkRow (instructor_code r) (course_code r)
                        (option_map strip (fillna "" (assessment_type r)))
                        (fillna_num 0 (percent_of_class_assessment r))
                        (fillna_num 0 (ai_misuse_susceptibility r))
                        (fillna_num 0 (modification_level r))) l.
Proof.
  unfold fill_defaults, normalize. rewrite !map_map. reflexivity.
Qed.

Lemma accepted_lines_fixed (l : list row) :
  fill_defaults (normalize (fill_defaults (normalize l))) = fill_defaults (normalize l).
Proof.
  rewrite (accepted_line (fill_defaults (normalize l))), (accepted_line l), map_map.
  apply map_ext. intros [i c t p a m].
  cbn [instructor_code course_code assessment_type percent_of_class_assessment
       ai_misuse_susceptibility modification_level].
  rewrite !fillna_num_twice by reflexivity.
  destruct t; cbn [fillna option_map]; now rewrite strip_idempotent.
Qed.

Lemma accepted_fixed (df : DataFrame) : accepted (accepted df) = accepted df.
Proof.
  unfold accepted. cbn [columns lines]. now rewrite accepted_lines_fixed.
Qed.

Lemma total_percent_accepted (df : DataFrame) :
  total_percent (accepted df) = total_percent df.
Proof.
  rewrite !total_percent_cells. unfold accepted. cbn [lines].
  rewrite accepted_line, map_map. f_equal. apply map_ext. intros r.
  cbn [percent_of_class_assessment]. now apply fillna_num_twice.
Qed.

(** X5.  A frame the validation returned is accepted again, and unchanged:
    the normalisation has nothing left to strip or to fill. *)
Theorem validate_accepted_again (df m : DataFrame) :
  validate df = inr m -> validate m = inr m.
Proof.
  intros H. apply validate_inr in H. destruct H as (Hc & Ht & ->).
  rewrite validate_ok.
  - now rewrite accepted_fixed.
  - exact Hc.
  - now rewrite total_percent_accepted.
Qed.

Lemma validate_accepted_again_witness :
  exists m, validate untidy = inr m
            /\ map assessment_type (lines m) = [Some "Essay"; Some ""; Some T0]
            /\ validate m = inr m.
Proof.
  eexists. split; [reflexivity|]. split; [reflexivity|].
  apply (validate_accepted_again untidy). reflexivity.
Defined.

(** ** Saving and loading again *)

Lemma set_own_type (r : row) (t : string) :
  assessment_type r = Some t -> set_assessment_type (Some t) r = r.
Proof.
  destruct r as [i c ty p a m]. simpl. intros ->. reflexivity.
Qed.

Lemma matching_app (t : string) (a b : list row) :
  matching t (a ++ b) = matching t a ++ matching t b.
Proof. apply filter_app. Qed.

Lemma typed_in (types : list string) (l : list row) (r : row) :
  map assessment_type l = map Some types -> In r l ->
  exists t, In t types /\ assessment_type r = Some t.
Proof.
  intros Hm Hin. apply (in_map assessment_type) in Hin.
  rewrite Hm in Hin. apply in_map_iff in Hin. destruct Hin as (t & Ht & Hin).
  exists t. split; [exact Hin | now symmetry].
Qed.

(** A left join of keys that are pairwise different with a frame that has
    exactly these keys, in this order, after lines [pre] of other keys. *)
Lemma join_own_lines (types : list string) :
  NoDup types ->
  forall pre rest : list row,
    map assessment_type rest = map Some types ->
    (forall r t, In r pre -> In t types -> assessment_type r <> Some t) ->
    merge_left types (pre ++ rest) = rest.
Proof.
  unfold merge_left.
  induction 1 as [|t ts Hnot Hnd IH]; intros pre rest Hm Hpre.
  - destruct rest; [reflexivity | discriminate].
  - destruct rest as [|r rest]; [discriminate|].
    cbn [map] in Hm. injection Hm as Hr Hrest.
    cbn [flat_map].
    assert (Hone : matching t (pre ++ r :: rest) = [r]).
    { rewrite matching_app.
      rewrite (matching_none t pre) by (intros r0 H0; apply (Hpre r0 t H0); now left).
      cbn [app]. unfold matching at 1. cbn [filter].
      replace (cell_eqb (assessment_type r) t) with true
        by (symmetry; now apply cell_eqb_eq).
      fold (matching t rest). rewrite (matching_none t rest); [reflexivity|].
      intros r0 H0 E. destruct (typed_in ts rest r0 Hrest H0) as (t0 & Ht0 & E0).
      rewrite E in E0. injection E0 as <-. contradiction. }
    rewrite Hone. cbn [map]. rewrite (set_own_type r t Hr). cbn [app]. f_equal.
    replace (pre ++ r :: rest) with ((pre ++ [r]) ++ rest)
      by (now rewrite <- app_assoc).
    apply IH; [exact Hrest|].
    intros r0 t0 H0 Ht0. apply in_app_or in H0. destruct H0 as [H0|[<-|[]]].
    + apply (Hpre r0 t0 H0). now right.
    + rewrite Hr. intros E. injection E as <-. contradiction.
Qed.

Lemma reconcile_own_records (ic cc : string) (m : list row) :
  map assessment_type m = map Some ASSESSMENT_TYPES ->
  reconcile (records ic cc m) = matrix_of (map project_columns m).
Proof.
  intros Hm.
  assert (Hp : map project_columns (records ic cc m) = map project_columns m).
  { unfold records. rewrite !map_map. reflexivity. }
  destruct (records ic cc m) as [|r rows] eqn:E.
  - destruct m; [discriminate Hm | discriminate E].
  - unfold reconcile, matrix_of. rewrite Hp. f_equal.
    apply (join_own_lines ASSESSMENT_TYPES registry_NoDup [] (map project_columns m)).
    + rewrite map_map. exact Hm.
    + intros r0 t [].
Qed.

Lemma fixed_by_map {A : Type} (f : A -> A) (l : list A) :
  map f l = l -> forall x, In x l -> f x = x.
Proof.
  induction l as [|y l IH]; simpl; intros H x Hx; [contradiction|].
  injection H as Hy Hl. destruct Hx as [<-|Hx]; [exact Hy | now apply IH].
Qed.

Lemma registry_line_reloaded (l : list row) :
  map assessment_type l = map Some ASSESSMENT_TYPES ->
  map project_columns (fill_defaults (normalize l)) = map as_reloaded l.
Proof.
  intros Hm. rewrite accepted_line, map_map. apply map_ext_in. intros r Hr.
  destruct (typed_in _ _ _ Hm Hr) as (t & Ht & E).
  unfold project_columns, as_reloaded.
  cbn [assessment_type percent_of_class_assessment ai_misuse_susceptibility
       modification_level].
  rewrite E. cbn [fillna option_map].
  now rewrite (fixed_by_map strip ASSESSMENT_TYPES strip_registry t Ht).
Qed.

Lemma accepted_types_of (l : list row) :
  map assessment_type (fill_defaults (normalize l))
  = map (fun c => option_map strip (fillna "" c)) (map assessment_type l).
Proof.
  rewrite accepted_line, !map_map. reflexivity.
Qed.

Lemma accepted_registry_types (l : list row) :
  map assessment_type l = map Some ASSESSMENT_TYPES ->
  map assessment_type (fill_defaults (normalize l)) = map Some ASSESSMENT_TYPES.
Proof.
  intros Hm. rewrite accepted_types_of, Hm, map_map. cbn [fillna option_map].
  rewrite <- (map_map strip Some), strip_registry. reflexivity.
Qed.

Lemma reconcile_after_replace (ic cc : string) (df : DataFrame) (w : world) :
  has_matrix_columns df = true ->
  map assessment_type (lines df) = map Some ASSESSMENT_TYPES ->
  reconcile (persisted ic cc (snd (replaceAll ic cc (accepted df) w)))
  = matrix_of (map as_reloaded (lines df)).
Proof.
  intros Hc Hm. rewrite persisted_replaceAll by exact Hc.
  unfold accepted. cbn [lines]. rewrite reconcile_own_records.
  - now rewrite registry_line_reloaded.
  - now apply accepted_registry_types.
Qed.

Lemma load_run (ic cc : string) (w : world) :
  load_assessments_for_course ic cc w
  = (inr (reconcile (persisted ic cc w)),
     mkWorld (store w) (executed w ++ [SelectAssessments ic cc])).
Proof. reflexivity. Qed.

(** X1.  Round trip.  After a successful save of a frame that has one line
    per registry type, in registry order, loading the pair returns the frame
    that was saved: the four columns of the matrix with the same types and
    values, a missing numeric cell being 0.0 now. *)
Theorem save_then_load (ic cc : string) (df : DataFrame) (w w' : world) :
  map assessment_type (lines df) = map Some ASSESSMENT_TYPES ->
  save_assessments_for_course ic cc df w = (inr tt, w') ->
  fst (load_assessments_for_course ic cc w')
  = inr (matrix_of (map as_reloaded (lines df))).
Proof.
  intros Hm Hs. apply save_success in Hs. destruct Hs as (Hc & _ & ->).
  rewrite load_run. cbn [fst]. f_equal. now apply reconcile_after_replace.
Qed.

Lemma save_then_load_witness :
  let df := edited_partial in
  let w' := snd (save_assessments_for_course "i1" "c1" df busy_world) in
  map assessment_type (lines df) = map Some ASSESSMENT_TYPES
  /\ save_assessments_for_course "i1" "c1" df busy_world = (inr tt, w')
  /\ fst (load_assessments_for_course "i1" "c1" w')
     = inr (matrix_of (map as_reloaded (lines df))).
Proof.
  cbv zeta. split; [reflexivity|]. split; [reflexivity|].
  apply (save_then_load "i1" "c1" edited_partial busy_world); reflexivity.
Defined.

Lemma total_percent_reloaded (df : DataFrame) :
  total_percent (matrix_of (map as_reloaded (lines df))) = total_percent df.
Proof.
  rewrite !total_percent_cells. cbn [matrix_of lines]. rewrite map_map. f_equal.
  apply map_ext. intros r. cbn [as_reloaded percent_of_class_assessment].
  now apply fillna_num_twice.
Qed.

Lemma records_of_reloaded (ic cc : string) (l : list row) :
  records ic cc (fill_defaults (normalize (map as_reloaded l)))
  = records ic cc (fill_defaults (normalize l)).
Proof.
  rewrite !accepted_line. unfold records. rewrite !map_map.
  apply map_ext. intros [i c t p a m].
  unfold as_reloaded, set_course_code, set_instructor_code.
  cbn [instructor_code course_code assessment_type percent_of_class_assessment
       ai_misuse_susceptibility modification_level].
  now rewrite !fillna_num_twice by reflexivity.
Qed.

(** X2.  What is loaded after a successful save of a registry-shaped frame
    can be saved as it is: the validation accepts it and the store afterwards
    holds what it held. *)
Theorem reload_saves_unchanged (ic cc : string) (df : DataFrame) (w w' : world) :
  map assessment_type (lines df) = map Some ASSESSMENT_TYPES ->
  save_assessments_for_course ic cc df w = (inr tt, w') ->
  exists loaded w1 w2,
    load_assessments_for_course ic cc w' = (inr loaded, w1)
    /\ save_assessments_for_course ic cc loaded w1 = (inr tt, w2)
    /\ store w2 = store w'.
Proof.
  intros Hm Hs. apply save_success in Hs. destruct Hs as (Hc & Ht & ->).
  set (w1 := snd (replaceAll ic cc (accepted df) w)).
  set (loaded := matrix_of (map as_reloaded (lines df))).
  assert (Hl : has_matrix_columns loaded = true) by reflexivity.
  assert (Ha : has_matrix_columns (accepted loaded) = true) by reflexivity.
  assert (Hd : has_matrix_columns (accepted df) = true) by exact Hc.
  exists loaded,
         (mkWorld (store w1) (executed w1 ++ [SelectAssessments ic cc])),
         (snd (replaceAll ic cc (accepted loaded)
                 (mkWorld (store w1) (executed w1 ++ [SelectAssessments ic cc])))).
  split; [|split].
  - rewrite load_run. unfold w1, loaded. now rewrite reconcile_after_replace.
  - rewrite save_valid.
    + now rewrite replaceAll_run.
    + exact Hl.
    + unfold loaded. now rewrite total_percent_reloaded.
  - rewrite replaceAll_run by exact Ha. cbn [snd store assessments courses].
    unfold w1. rewrite replaceAll_run by exact Hd.
    cbn [snd store assessments courses].
    unfold loaded, accepted. cbn [matrix_of lines].
    rewrite records_of_reloaded, filter_app, filter_negb_idem.
    rewrite (filter_negb_all (keyed ic cc) _ (keyed_records ic cc _)).
    now rewrite app_nil_r.
Qed.

Lemma reload_saves_unchanged_witness :
  let df := edited_partial in
  let w' := snd (save_assessments_for_course "i1" "c1" df busy_world) in
  map assessment_type (lines df) = map Some ASSESSMENT_TYPES
  /\ save_assessments_for_course "i1" "c1" df busy_world = (inr tt, w')
  /\ exists loaded w1 w2,
       load_assessments_for_course "i1" "c1" w' = (inr loaded, w1)
       /\ save_assessments_for_course "i1" "c1" loaded w1 = (inr tt, w2)
       /\ store w2 = store w'.
Proof.
  cbv zeta. split; [reflexivity|]. split; [reflexivity|].
  apply (reload_saves_unchanged "i1" "c1" edited_partial busy_world); reflexivity.
Defined.

(** ** Other pairs *)

Lemma keyed_same_pair (ic cc ic' cc' : string) (r : row) :
  keyed ic cc r = true -> keyed ic' cc' r = true -> (ic', cc') = (ic, cc).
Proof.
  unfold keyed. rewrite !andb_true_iff, !cell_eqb_eq.
  intros [Hi Hc] [Hi' Hc']. congruence.
Qed.

Lemma filter_through {A : Type} (f g : A -> bool) (l : list A) :
  (forall x, f x = true -> g x = false) ->
  filter f (filter (fun x => negb (g x)) l) = filter f l.
Proof.
  intros H. induction l as [|x l IH]; simpl; [reflexivity|].
  destruct (g x) eqn:Eg; simpl.
  - destruct (f x) eqn:Ef; [|exact IH]. rewrite (H x Ef) in Eg. discriminate.
  - now rewrite IH.
Qed.

Lemma filter_nothing {A : Type} (f : A -> bool) (l : list A) :
  (forall x, In x l -> f x = false) -> filter f l = [].
Proof.
  induction l as [|x l IH]; simpl; intros H; [reflexivity|].
  rewrite (H x (or_introl eq_refl)). apply IH. intros y Hy. apply H. now right.
Qed.

Lemma other_pair_after_delete (ic cc ic' cc' : string) (rows : list row) :
  (ic', cc') <> (ic, cc) ->
  filter (keyed ic' cc') (filter (fun r => negb (keyed ic cc r)) rows)
  = filter (keyed ic' cc') rows.
Proof.
  intros Hne. apply filter_through. intros r Hr.
  destruct (keyed ic cc r) eqn:E; [|reflexivity].
  exfalso. apply Hne. exact (keyed_same_pair ic cc ic' cc' r E Hr).
Qed.

(** X3.  A successful save for one pair leaves every other pair as it was:
    the records another (instructor, course) pair has in the store, the frame
    loaded for it, and the table of courses are the same before and after. *)
Theorem save_other_pairs_untouched
        (ic cc ic' cc' : string) (df : DataFrame) (w w' : world) :
  (ic', cc') <> (ic, cc) ->
  save_assessments_for_course ic cc df w = (inr tt, w') ->
  persisted ic' cc' w' = persisted ic' cc' w
  /\ fst (load_assessments_for_course ic' cc' w')
     = fst (load_assessments_for_course ic' cc' w)
  /\ courses (store w') = courses (store w).
Proof.
  intros Hne Hs. apply save_success in Hs. destruct Hs as (Hc & _ & ->).
  assert (Ha : has_matrix_columns (accepted df) = true) by exact Hc.
  assert (Hp : persisted ic' cc' (snd (replaceAll ic cc (accepted df) w))
               = persisted ic' cc' w).
  { rewrite replaceAll_run by exact Ha. unfold persisted. cbn [snd store assessments].
    rewrite filter_app, (other_pair_after_delete ic cc ic' cc' _ Hne).
    rewrite (filter_nothing (keyed ic' cc') (records ic cc _)).
    - apply app_nil_r.
    - intros r Hr. destruct (keyed ic' cc' r) eqn:E; [|reflexivity].
      exfalso. apply Hne. apply (keyed_same_pair ic cc ic' cc' r); [|exact E].
      pose proof (keyed_records ic cc (lines (accepted df))) as Hk.
      rewrite forallb_forall in Hk. now apply Hk. }
  split; [exact Hp|]. split.
  - rewrite !load_run. cbn [fst]. now rewrite Hp.
  - rewrite replaceAll_run by exact Ha. reflexivity.
Qed.

Lemma save_other_pairs_untouched_witness :
  let w' := snd (save_assessments_for_course "i1" "c1" out_of_range busy_world) in
  ("i2", "c1") <> ("i1", "c1")
  /\ save_assessments_for_course "i1" "c1" out_of_range busy_world = (inr tt, w')
  /\ persisted "i2" "c1" w' = [stored "i2" "c1" T0 100 0 0].
Proof.
  cbv zeta. split; [discriminate|]. split; [reflexivity|].
  refine (proj1 (save_other_pairs_untouched "i1" "c1" "i2" "c1" out_of_range busy_world
                  (snd (save_assessments_for_course "i1" "c1" out_of_range busy_world))
                  _ _)).
  - discriminate.
  - reflexivity.
Defined.

(** ** Deleting a course *)

Lemma delete_course_run (course_id ic cc : string) (w : world) :
  delete_course_for_instructor course_id ic cc w
  = (inr tt,
     mkWorld
       (mkDb (filter (fun r => negb (keyed ic cc r)) (assessments (store w)))
             (filter (fun c => negb (String.eqb (id c) course_id
                                     && String.eqb (course_instructor_code c) ic))
                     (courses (store w))))
       (executed w ++ [DeleteAssessments ic cc; DeleteCourse course_id ic])).
Proof.
  unfold delete_course_for_instructor, bind, delete_assessments, delete_course.
  cbn. now rewrite <- app_assoc.
Qed.

(** X4.  Deleting a course removes the course records that have the given
    id and instructor, and the assessment records of the given (instructor,
    course code) pair.  A course record with another id stays in the table,
    also when it has the same instructor and course code; the pair has no
    assessment record left all the same, so the matrix loaded for the
    remaining record is the default.  The assessment records of every other
    pair stay. *)
Theorem delete_course_shared_code
        (course_id ic cc : string) (w : world) (c : course) :
  In c (courses (store w)) ->
  id c <> course_id ->
  let w' := snd (delete_course_for_instructor course_id ic cc w) in
  In c (courses (store w'))
  /\ (forall c', In c' (courses (store w')) ->
        In c' (courses (store w))
        /\ ~ (id c' = course_id /\ course_instructor_code c' = ic))
  /\ fst (load_assessments_for_course ic cc w') = inr default_matrix
  /\ (forall ic' cc', (ic', cc') <> (ic, cc) ->
        persisted ic' cc' w' = persisted ic' cc' w).
Proof.
  intros Hin Hid. cbv zeta. rewrite delete_course_run. cbn [snd].
  split; [|split; [|split]].
  - cbn [store courses]. apply filter_In. split; [exact Hin|].
    apply negb_true_iff, andb_false_iff. left.
    apply String.eqb_neq. exact Hid.
  - cbn [store courses]. intros c' Hc'. apply filter_In in Hc'.
    destruct Hc' as [Hc' Hb]. split; [exact Hc'|].
    intros [E1 E2]. apply negb_true_iff, andb_false_iff in Hb.
    destruct Hb as [Hb|Hb]; apply String.eqb_neq in Hb; contradiction.
  - rewrite load_run. cbn [fst]. unfold persisted. cbn [store assessments].
    now rewrite filter_negb_nil.
  - intros ic' cc' Hne. unfold persisted. cbn [store assessments].
    now apply other_pair_after_delete.
Qed.

Lemma delete_course_shared_code_witness :
  let c := mkCourse "2" "i1" "ACCT 2001" "Accounting" "Fall" "" "Online synchronous" 25%Z in
  let w' := snd (delete_course_for_instructor "1" "i1" "ACCT 2001" two_modalities) in
  In c (courses (store two_modalities)) /\ id c <> "1"
  /\ In c (courses (store w'))
  /\ fst (load_assessments_for_course "i1" "ACCT 2001" w') = inr default_matrix.
Proof.
  cbv zeta.
  assert (Hin : In (mkCourse "2" "i1" "ACCT 2001" "Accounting" "Fall" ""
                             "Online synchronous" 25%Z)
                   (courses (store two_modalities))) by (right; left; reflexivity).
  assert (Hid : id (mkCourse "2" "i1" "ACCT 2001" "Accounting" "Fall" ""
                             "Online synchronous" 25%Z) <> "1") by discriminate.
  split; [exact Hin|]. split; [exact Hid|].
  destruct (delete_course_shared_code "1" "i1" "ACCT 2001" two_modalities _ Hin Hid)
    as (H1 & _ & H3 & _).
  split; [exact H1 | exact H3].
Defined.

(** ** Stored records the registry does not know *)

Lemma merge_left_no_partner (types : list string) (df_db : list row) :
  (forall t, In t types -> matching t df_db = []) ->
  merge_left types df_db = map blank types.
Proof.
  unfold merge_left. induction types as [|t types IH]; intros H; [reflexivity|].
  cbn [flat_map map]. rewrite (H t (or_introl eq_refl)). cbn [app]. f_equal.
  apply IH. intros t' Ht'. apply H. now right.
Qed.

(** X6.  When the pair has stored records but none of a registry type (a
    label that differs by case or white space, say), the loaded matrix is not
    the default: every line has its three numeric cells missing, the total is
    0.0, and the validation rejects the matrix as it is. *)
Theorem reconcile_only_unknown_types (data : list row) :
  data <> [] ->
  (forall r t, In r data -> In t ASSESSMENT_TYPES -> assessment_type r <> Some t) ->
  reconcile data = matrix_of (map (fun t => mkRow None None (Some t) nan nan nan)
                                  ASSESSMENT_TYPES)
  /\ reconcile data <> default_matrix
  /\ total_percent (reconcile data) = 0%float
  /\ validate (reconcile data) = inl (ValueError (percent_sum_message 0)).
Proof.
  intros Hne Hnone.
  assert (E : reconcile data
              = matrix_of (map (fun t => mkRow None None (Some t) nan nan nan)
                               ASSESSMENT_TYPES)).
  { destruct data as [|r data]; [congruence|]. unfold reconcile, matrix_of. f_equal.
    apply merge_left_no_partner. intros t Ht.
    rewrite matching_project.
    rewrite (matching_none t (r :: data)); [reflexivity|].
    intros r0 Hr0. now apply Hnone. }
  rewrite E. split; [reflexivity|]. split; [|split; reflexivity].
  intros H.
  apply (f_equal (fun df => map (fun r => PrimFloat.is_nan (percent_of_class_assessment r))
                                (lines df))) in H.
  vm_compute in H. discriminate.
Qed.

Lemma reconcile_only_unknown_types_witness :
  drifted <> []
  /\ reconcile drifted <> default_matrix
  /\ total_percent (reconcile drifted) = 0%float.
Proof.
  split; [discriminate|].
  assert (H : forall r t, In r drifted -> In t ASSESSMENT_TYPES ->
                          assessment_type r <> Some t).
  { intros r t Hr Ht.
    assert (Hb : forallb (fun r0 => forallb (fun t0 => negb (cell_eqb (assessment_type r0) t0))
                                            ASSESSMENT_TYPES) drifted = true)
      by reflexivity.
    rewrite forallb_forall in Hb. specialize (Hb r Hr).
    rewrite forallb_forall in Hb. specialize (Hb t Ht).
    intros E. apply cell_eqb_eq in E. rewrite E in Hb. discriminate. }
  destruct (reconcile_only_unknown_types drifted ltac:(discriminate) H) as (_ & H2 & H3 & _).
  split; [exact H2 | exact H3].
Defined.

(** ** The table of courses *)

Lemma db_eta (d : db) : mkDb (assessments d) (courses d) = d.
Proof. now destruct d. Qed.

Lemma course_keyed_updated (course_id ic : string) (c : course)
      (title term_ level_ modality_ : string) (students : Z) :
  course_keyed course_id ic
    (mkCourse (id c) (course_instructor_code c) (course_course_code c)
              title term_ level_ modality_ students)
  = course_keyed course_id ic c.
Proof. reflexivity. Qed.

(** X7.  An update rewrites title, term, level, modality and enrollment of
    the course records that have the given id and instructor, and nothing
    else: ids, owners and course codes of the table are what they were, in the
    same order, every other course record is unchanged, and so are the
    assessment records. *)
Theorem update_course_keeps_identity
        (course_id ic title term_ level_ modality_ : string) (students : Z) (d : db) :
  let d' := update_course_for_instructor course_id ic title term_ level_ modality_
                                         students d in
  map id (courses d') = map id (courses d)
  /\ map course_instructor_code (courses d') = map course_instructor_code (courses d)
  /\ map course_course_code (courses d') = map course_course_code (courses d)
  /\ filter (fun c => negb (course_keyed course_id ic c)) (courses d')
     = filter (fun c => negb (course_keyed course_id ic c)) (courses d)
  /\ filter (course_keyed course_id ic) (courses d')
     = map (fun c => mkCourse (id c) (course_instructor_code c) (course_course_code c)
                              title term_ level_ modality_ students)
           (filter (course_keyed course_id ic) (courses d))
  /\ assessments d' = assessments d.
Proof.
  cbv zeta. unfold update_course_for_instructor. cbn [courses assessments].
  repeat split.
  - rewrite map_map. apply map_ext. intros c.
    now destruct (course_keyed course_id ic c).
  - rewrite map_map. apply map_ext. intros c.
    now destruct (course_keyed course_id ic c).
  - rewrite map_map. apply map_ext. intros c.
    now destruct (course_keyed course_id ic c).
  - induction (courses d) as [|c l IH]; [reflexivity|]. cbn [map filter].
    destruct (course_keyed course_id ic c) eqn:E.
    + rewrite course_keyed_updated, E. exact IH.
    + rewrite E. cbn [negb]. now rewrite IH.
  - induction (courses d) as [|c l IH]; [reflexivity|]. cbn [map filter].
    destruct (course_keyed course_id ic c) eqn:E.
    + rewrite course_keyed_updated, E. cbn [map]. now rewrite IH.
    + rewrite E. exact IH.
Qed.

(** X8.  An update with an id whose course belongs to another instructor, or
    to nobody, changes nothing in the store. *)
Theorem update_course_of_another (course_id ic title term_ level_ modality_ : string)
        (students : Z) (d : db) :
  (forall c, In c (courses d) -> id c = course_id -> course_instructor_code c <> ic) ->
  update_course_for_instructor course_id ic title term_ level_ modality_ students d = d.
Proof.
  intros H. unfold update_course_for_instructor.
  rewrite <- (db_eta d) at 3. f_equal.
  rewrite <- (map_id (courses d)) at 2. apply map_ext_in. intros c Hc.
  destruct (course_keyed course_id ic c) eqn:E; [|reflexivity].
  unfold course_keyed, owned_by in E. apply andb_true_iff in E.
  destruct E as [E1 E2]. apply String.eqb_eq in E1, E2.
  exfalso. exact (H c Hc E1 E2).
Qed.

Lemma update_course_of_another_witness :
  update_course_for_instructor "2" "i1" "Mine now" "" "" "" 0%Z campus = campus.
Proof.
  apply update_course_of_another.
  intros c Hc Hid. simpl in Hc.
  destruct Hc as [<-|[<-|[<-|[]]]]; simpl in *; discriminate.
Defined.

(** X9.  Of two updates of the same course by the same instructor the second
    one decides: the store is as if only the second had been made. *)
Theorem update_course_last_wins
        (course_id ic : string)
        (title1 term1 level1 modality1 : string) (students1 : Z)
        (title2 term2 level2 modality2 : string) (students2 : Z) (d : db) :
  update_course_for_instructor course_id ic title2 term2 level2 modality2 students2
    (update_course_for_instructor course_id ic title1 term1 level1 modality1 students1 d)
  = update_course_for_instructor course_id ic title2 term2 level2 modality2 students2 d.
Proof.
  unfold update_course_for_instructor. cbn [courses assessments]. f_equal.
  rewrite map_map. apply map_ext. intros c.
  destruct (course_keyed course_id ic c) eqn:E.
  - now rewrite course_keyed_updated, E.
  - now rewrite E.
Qed.

Lemma delete_course_in_eq (course_id ic cc : string) (d : db) :
  delete_course_in course_id ic cc d
  = mkDb (filter (fun r => negb (keyed ic cc r)) (assessments d))
         (filter (fun c => negb (course_keyed course_id ic c)) (courses d)).
Proof.
  unfold delete_course_in. rewrite delete_course_run. reflexivity.
Qed.

(** The store after the button "Save assessments for this course": what it
    was when the save raised, the replacement otherwise. *)
Lemma save_assessments_in_cases (ic cc : string) (df : DataFrame) (d : db) :
  save_assessments_in ic cc df d = d
  \/ save_assessments_in ic cc df d
     = mkDb (filter (fun r => negb (keyed ic cc r)) (assessments d)
             ++ records ic cc (lines (accepted df)))
            (courses d).
Proof.
  unfold save_assessments_in.
  destruct (save_assessments_for_course ic cc df (mkWorld d [])) as [[e|[]] w'] eqn:E.
  - left. pose proof (save_raises ic cc df (mkWorld d []) e) as H.
    rewrite E in H. specialize (H eq_refl). injection H as ->. reflexivity.
  - right. apply save_success in E. destruct E as (Hc & _ & ->).
    assert (Ha : has_matrix_columns (accepted df) = true) by exact Hc.
    rewrite replaceAll_run by exact Ha. reflexivity.
Qed.

Section CourseListing.

Variable order_by_created_at_desc : list course -> list course.
Hypothesis order_permutes :
  forall l, Permutation (order_by_created_at_desc l) l.

Let load_courses := load_courses_for_instructor order_by_created_at_desc.

Lemma load_courses_In (ic : string) (d : db) (c : course) :
  In c (load_courses ic d) <-> In c (courses d) /\ course_instructor_code c = ic.
Proof.
  unfold load_courses, load_courses_for_instructor. split.
  - intros H. apply (Permutation_in _ (order_permutes _)) in H.
    apply filter_In in H. destruct H as [H E]. split; [exact H|].
    now apply String.eqb_eq.
  - intros [H E]. apply (Permutation_in _ (Permutation_sym (order_permutes _))).
    apply filter_In. split; [exact H|]. now apply String.eqb_eq.
Qed.

(** X10.  The form "Add a course" refuses a course code that is empty or
    white space only, and leaves the store as it is.  Any other code is
    accepted: the instructor's list of courses then holds one more record,
    the new one, whose text fields are the stripped inputs; the lists of the
    other instructors and the assessment records are unchanged. *)
Theorem add_course_form
        (new_id ic cc title term_ level_ modality_ : string) (students : Z) (d : db) :
  let submitted :=
    submit_add_course new_id ic cc title term_ level_ modality_ students d in
  (strip cc = "" -> submitted = (error_ "Course code is required.", d))
  /\ (strip cc <> "" ->
      fst submitted = success_ "Course added."
      /\ Permutation
           (load_courses ic (snd submitted))
           (mkCourse new_id ic (strip cc) (strip title) (strip term_) (strip level_)
                     (strip modality_) students
            :: load_courses ic d)
      /\ (forall ic', ic' <> ic ->
            load_courses ic' (snd submitted) = load_courses ic' d)
      /\ assessments (snd submitted) = assessments d).
Proof.
  cbv zeta. unfold submit_add_course. split.
  - intros E. now rewrite E.
  - intros E. apply String.eqb_neq in E. rewrite E. cbn [fst snd].
    split; [reflexivity|]. split; [|split; [|reflexivity]].
    + unfold load_courses, load_courses_for_instructor, add_course_for_instructor.
      cbn [courses]. rewrite filter_app. cbn [filter]. unfold owned_by at 2.
      cbn [course_instructor_code]. rewrite String.eqb_refl.
      etransitivity; [apply order_permutes|].
      etransitivity; [apply Permutation_app_comm|]. cbn [app].
      constructor. apply Permutation_sym, order_permutes.
    + intros ic' Hne.
      unfold load_courses, load_courses_for_instructor, add_course_for_instructor.
      cbn [courses]. rewrite filter_app. cbn [filter]. unfold owned_by at 2.
      cbn [course_instructor_code]. apply not_eq_sym in Hne.
      apply String.eqb_neq in Hne. rewrite Hne. now rewrite app_nil_r.
Qed.

(** X11.  After "Delete this course" the instructor's list holds the
    courses it held whose id is not the deleted one, and the lists of the
    other instructors are unchanged. *)
Theorem delete_course_then_listed (selected : course) (ic : string) (d : db) :
  let d' := handle ic d (DeleteThisCourse selected) in
  (forall c, In c (load_courses ic d')
             <-> In c (load_courses ic d) /\ id c <> id selected)
  /\ (forall ic', ic' <> ic -> load_courses ic' d' = load_courses ic' d).
Proof.
  cbv zeta. cbn [handle]. rewrite delete_course_in_eq. split.
  - intros c. rewrite !load_courses_In. cbn [courses]. rewrite filter_In.
    unfold course_keyed, owned_by. split.
    + intros [[Hin Hb] E]. split; [now split|].
      intros Hid. rewrite Hid, E, !String.eqb_refl in Hb. discriminate.
    + intros [[Hin E] Hid]. split; [|exact E]. split; [exact Hin|].
      apply String.eqb_neq in Hid. now rewrite Hid.
  - intros ic' Hne. unfold load_courses, load_courses_for_instructor.
    cbn [courses]. f_equal. apply filter_through.
    intros c Hc. unfold owned_by in Hc. apply String.eqb_eq in Hc.
    unfold course_keyed, owned_by. rewrite Hc.
    apply String.eqb_neq in Hne. rewrite Hne. apply andb_false_r.
Qed.

End CourseListing.

Lemma rev_permutes (l : list course) : Permutation (rev l) l.
Proof. apply Permutation_sym, Permutation_rev. Qed.

Lemma add_course_form_witness :
  let submitted :=
    submit_add_course "4" "i2" "  FINA 4000 " " Finance" "Fall " "" "" 12%Z campus in
  (forall l : list course, Permutation (rev l) l)
  /\ submit_add_course "9" "i2" "   " "Nothing" "" "" "" 0%Z campus
     = (error_ "Course code is required.", campus)
  /\ submit_add_course "9" "i2" (no_break_space ++ " ") "Nothing" "" "" "" 0%Z campus
     = (error_ "Course code is required.", campus)
  /\ fst submitted = success_ "Course added."
  /\ Permutation
       (load_courses_for_instructor (@rev course) "i2" (snd submitted))
       (mkCourse "4" "i2" "FINA 4000" "Finance" "Fall" "" "" 12%Z
        :: load_courses_for_instructor (@rev course) "i2" campus).
Proof.
  cbv zeta. split; [exact rev_permutes|]. split; [|split].
  - exact (proj1 (add_course_form (@rev course) rev_permutes
                    "9" "i2" "   " "Nothing" "" "" "" 0%Z campus) eq_refl).
  - exact (proj1 (add_course_form (@rev course) rev_permutes
                    "9" "i2" (no_break_space ++ " ") "Nothing" "" "" "" 0%Z campus)
                 eq_refl).
  - destruct (proj2 (add_course_form (@rev course) rev_permutes
                       "4" "i2" "  FINA 4000 " " Finance" "Fall " "" "" 12%Z campus))
      as (H1 & H2 & _); [discriminate|].
    split; [exact H1 | exact H2].
Defined.

Lemma delete_course_then_listed_witness :
  (forall l : list course, Permutation (rev l) l)
  /\ load_courses_for_instructor (@rev course) "i2"
       (handle "i1" campus
          (DeleteThisCourse (mkCourse "1" "i1" "ACCT 2001" "Accounting" "Fall" ""
                                      "In person" 40%Z)))
     = load_courses_for_instructor (@rev course) "i2" campus.
Proof.
  split; [exact rev_permutes|].
  apply (proj2 (delete_course_then_listed (@rev course) rev_permutes
                  (mkCourse "1" "i1" "ACCT 2001" "Accounting" "Fall" "" "In person" 40%Z)
                  "i1" campus)).
  discriminate.
Defined.

(** ** What a visit keeps *)

Lemma courses_saved (ic cc : string) (df : DataFrame) (d : db) :
  courses (save_assessments_in ic cc df d) = courses d.
Proof.
  destruct (save_assessments_in_cases ic cc df d) as [-> | ->]; reflexivity.
Qed.

Lemma strip_not_empty (s : string) :
  String.eqb (strip s) "" = false ->
  strip s <> "" /\ strip (strip s) = strip s.
Proof.
  intros E. split; [now apply String.eqb_neq | apply strip_idempotent].
Qed.

Lemma handle_keeps_codes_tidy (ic : string) (d : db) (a : action) :
  Forall tidy_code (courses d) -> Forall tidy_code (courses (handle ic d a)).
Proof.
  intros H. destruct a as [new_id cc title t l m n | sel title t l m n | sel | sel df];
    cbn [handle].
  - unfold submit_add_course.
    destruct (String.eqb (strip cc) "") eqn:E; cbn [snd]; [exact H|].
    unfold add_course_for_instructor. cbn [courses].
    apply Forall_app. split; [exact H|].
    constructor; [|constructor]. exact (strip_not_empty cc E).
  - unfold update_course_for_instructor. cbn [courses].
    rewrite Forall_forall in *. intros c Hc. apply in_map_iff in Hc.
    destruct Hc as (c0 & <- & Hc0).
    destruct (course_keyed (id sel) ic c0); [|now apply H].
    exact (H c0 Hc0).
  - rewrite delete_course_in_eq. cbn [courses].
    rewrite Forall_forall in *. intros c Hc. apply filter_In in Hc. now apply H.
  - now rewrite courses_saved.
Qed.

(** X12.  Course codes stay as the form writes them.  If every course
    record has a code that is not empty and has no white space around it,
    this is still so after anything the instructor does through the
    portal: adding courses, saving course changes, deleting courses, saving
    assessments. *)
Theorem visit_keeps_codes_tidy (ic : string) (actions : list action) (d : db) :
  Forall tidy_code (courses d) ->
  Forall tidy_code (courses (session_of ic actions d)).
Proof.
  unfold session_of. revert d.
  induction actions as [|a actions IH]; intros d H; [exact H|].
  cbn [fold_left]. apply IH. now apply handle_keeps_codes_tidy.
Qed.

Lemma visit_keeps_codes_tidy_witness :
  Forall tidy_code (courses campus)
  /\ Forall tidy_code (courses (session_of "i1" a_visit campus))
  /\ map course_course_code (courses (session_of "i1" a_visit campus))
     = ["ACCT 2001"; "MKTG 3000"; "ACCT 2001"].
Proof.
  assert (H : Forall tidy_code (courses campus)).
  { repeat constructor; discriminate. }
  split; [exact H|]. split; [|reflexivity].
  exact (visit_keeps_codes_tidy "i1" a_visit campus H).
Defined.

(** Records of table [assessments] that do not carry instructor [ic]. *)
Lemma keyed_instructor (ic cc : string) (r : row) :
  keyed ic cc r = true -> cell_eqb (instructor_code r) ic = true.
Proof.
  unfold keyed. intros H. apply andb_true_iff in H. tauto.
Qed.

Lemma filter_map_fixed {A : Type} (p : A -> bool) (f : A -> A) (l : list A) :
  (forall x, p (f x) = p x) ->
  (forall x, p x = true -> f x = x) ->
  filter p (map f l) = filter p l.
Proof.
  intros Hp Hf. induction l as [|x l IH]; [reflexivity|]. cbn [map filter].
  rewrite Hp. destruct (p x) eqn:E; [|exact IH].
  now rewrite (Hf x E), IH.
Qed.

Lemma handle_leaves_other_courses (ic : string) (d : db) (a : action) :
  filter (fun c => negb (owned_by ic c)) (courses (handle ic d a))
  = filter (fun c => negb (owned_by ic c)) (courses d).
Proof.
  destruct a as [new_id cc title t l m n | sel title t l m n | sel | sel df];
    cbn [handle].
  - unfold submit_add_course.
    destruct (String.eqb (strip cc) ""); cbn [snd]; [reflexivity|].
    unfold add_course_for_instructor. cbn [courses].
    rewrite filter_app. cbn [filter]. unfold owned_by at 2.
    cbn [course_instructor_code]. rewrite String.eqb_refl. cbn [negb].
    apply app_nil_r.
  - unfold update_course_for_instructor. cbn [courses].
    apply filter_map_fixed.
    + intros c. now destruct (course_keyed (id sel) ic c).
    + intros c Hc. destruct (course_keyed (id sel) ic c) eqn:E; [|reflexivity].
      unfold course_keyed in E. apply andb_true_iff in E. destruct E as [_ E].
      rewrite E in Hc. discriminate.
  - rewrite delete_course_in_eq. cbn [courses]. apply filter_through.
    intros c Hc. unfold course_keyed.
    apply negb_true_iff in Hc. rewrite Hc. apply andb_false_r.
  - now rewrite courses_saved.
Qed.

Lemma handle_leaves_other_assessments (ic : string) (d : db) (a : action) :
  filter (fun r => negb (cell_eqb (instructor_code r) ic)) (assessments (handle ic d a))
  = filter (fun r => negb (cell_eqb (instructor_code r) ic)) (assessments d).
Proof.
  assert (Hdel : forall cc rows,
             filter (fun r => negb (cell_eqb (instructor_code r) ic))
                    (filter (fun r => negb (keyed ic cc r)) rows)
             = filter (fun r => negb (cell_eqb (instructor_code r) ic)) rows).
  { intros cc rows. apply filter_through. intros r Hr.
    destruct (keyed ic cc r) eqn:E; [|reflexivity].
    apply keyed_instructor in E. rewrite E in Hr. discriminate. }
  destruct a as [new_id cc title t l m n | sel title t l m n | sel | sel df];
    cbn [handle].
  - unfold submit_add_course.
    destruct (String.eqb (strip cc) ""); reflexivity.
  - reflexivity.
  - rewrite delete_course_in_eq. cbn [assessments]. apply Hdel.
  - destruct (save_assessments_in_cases ic (course_course_code sel) df d) as [-> | ->];
      [reflexivity|].
    cbn [assessments]. rewrite filter_app, Hdel.
    rewrite (filter_nothing _ (records ic (course_course_code sel) _)).
    + apply app_nil_r.
    + intros r Hr.
      pose proof (keyed_records ic (course_course_code sel)
                    (lines (accepted df))) as Hk.
      rewrite forallb_forall in Hk. specialize (Hk r Hr).
      apply keyed_instructor in Hk. now rewrite Hk.
Qed.

Lemma visit_leaves_others (ic : string) (actions : list action) (d : db) :
  filter (fun c => negb (owned_by ic c)) (courses (session_of ic actions d))
  = filter (fun c => negb (owned_by ic c)) (courses d)
  /\ filter (fun r => negb (cell_eqb (instructor_code r) ic))
            (assessments (session_of ic actions d))
     = filter (fun r => negb (cell_eqb (instructor_code r) ic)) (assessments d).
Proof.
  unfold session_of. revert d.
  induction actions as [|a actions IH]; intros d; [split; reflexivity|].
  cbn [fold_left]. destruct (IH (handle ic d a)) as [H1 H2].
  rewrite H1, H2. split.
  - apply handle_leaves_other_courses.
  - apply handle_leaves_other_assessments.
Qed.

Lemma filter_within {A : Type} (p q : A -> bool) (l l' : list A) :
  (forall x, p x = true -> q x = true) ->
  filter q l = filter q l' -> filter p l = filter p l'.
Proof.
  intros H E.
  assert (F : forall m, filter p (filter q m) = filter p m).
  { induction m as [|x m IH]; [reflexivity|]. cbn [filter].
    destruct (q x) eqn:Eq.
    - cbn [filter]. now rewrite IH.
    - rewrite IH. destruct (p x) eqn:Ep; [|reflexivity].
      rewrite (H x Ep) in Eq. discriminate. }
  rewrite <- (F l), <- (F l'), E. reflexivity.
Qed.

(** X13.  Whatever an instructor does through the portal (adding courses,
    saving course changes, deleting courses, saving assessments, on any
    selected course, even one that is not theirs), every other instructor
    finds the same list of courses and the same assessment matrix for each
    of their course codes as before. *)
Theorem visit_leaves_other_instructors
        (order_by_created_at_desc : list course -> list course)
        (ic ic' cc' : string) (actions : list action) (d : db) :
  ic' <> ic ->
  let d' := session_of ic actions d in
  load_courses_for_instructor order_by_created_at_desc ic' d'
  = load_courses_for_instructor order_by_created_at_desc ic' d
  /\ fst (load_assessments_for_course ic' cc' (mkWorld d' []))
     = fst (load_assessments_for_course ic' cc' (mkWorld d [])).
Proof.
  intros Hne. cbv zeta. destruct (visit_leaves_others ic actions d) as [Hc Ha].
  split.
  - unfold load_courses_for_instructor. f_equal.
    apply (filter_within (owned_by ic') (fun c => negb (owned_by ic c)));
      [|exact Hc].
    intros c Hc'. unfold owned_by in *. apply String.eqb_eq in Hc'. rewrite Hc'.
    apply negb_true_iff, String.eqb_neq. exact Hne.
  - rewrite !load_run. cbn [fst]. unfold persisted. cbn [store]. f_equal. f_equal.
    apply (filter_within (keyed ic' cc')
                         (fun r => negb (cell_eqb (instructor_code r) ic)));
      [|exact Ha].
    intros r Hr. apply keyed_instructor in Hr. apply cell_eqb_eq in Hr. rewrite Hr.
    cbn [cell_eqb]. apply negb_true_iff, String.eqb_neq. exact Hne.
Qed.

Lemma visit_leaves_other_instructors_witness :
  "i2" <> "i1"
  /\ load_courses_for_instructor (@rev course) "i2" (session_of "i1" a_visit campus)
     = [mkCourse "2" "i2" "MKTG 3000" "Marketing" "Fall" "Graduate" "" 25%Z]
  /\ fst (load_assessments_for_course "i2" "MKTG 3000"
            (mkWorld (session_of "i1" a_visit campus) []))
     = fst (load_assessments_for_course "i2" "MKTG 3000" (mkWorld campus [])).
Proof.
  split; [discriminate|].
  exact (visit_leaves_other_instructors (@rev course) "i1" "i2" "MKTG 3000"
           a_visit campus ltac:(discriminate)).
Defined.

(** ** The select box of courses *)

Lemma dict_get_set {V : Type} (k l : string) (v : V) (d : list (string * V)) :
  dict_get l (dict_set k v d) = if String.eqb k l then Some v else dict_get l d.
Proof.
  induction d as [|[k' v'] d IH]; cbn [dict_set dict_get]; [reflexivity|].
  destruct (String.eqb k' k) eqn:E.
  - apply String.eqb_eq in E. subst k'. cbn [dict_get].
    now destruct (String.eqb k l).
  - cbn [dict_get]. rewrite IH. destruct (String.eqb k' l) eqn:E'; [|reflexivity].
    apply String.eqb_eq in E'. subst l.
    rewrite String.eqb_sym, E. reflexivity.
Qed.

Lemma find_app {A : Type} (p : A -> bool) (a b : list A) :
  find p (a ++ b) = match find p a with Some x => Some x | None => find p b end.
Proof.
  induction a as [|x a IH]; [reflexivity|]. cbn [app find].
  now destruct (p x).
Qed.

Lemma options_get (l : string) (cs : list course) (d0 : list (string * course)) :
  dict_get l (fold_left (fun d c => dict_set (course_label c) c d) cs d0)
  = match find (fun c => String.eqb (course_label c) l) (rev cs) with
    | Some c => Some c
    | None => dict_get l d0
    end.
Proof.
  revert d0. induction cs as [|c cs IH]; intros d0; [reflexivity|].
  cbn [fold_left rev]. rewrite IH, find_app, dict_get_set. cbn [find].
  destruct (find (fun c0 => String.eqb (course_label c0) l) (rev cs)); [reflexivity|].
  now destruct (String.eqb (course_label c) l).
Qed.

Lemma keys_set {V : Type} (k : string) (v : V) (d : list (string * V)) (x : string) :
  In x (map fst (dict_set k v d)) <-> x = k \/ In x (map fst d).
Proof.
  induction d as [|[k' v'] d IH]; cbn [dict_set map fst In].
  - intuition.
  - destruct (String.eqb k' k) eqn:E; cbn [map fst In].
    + apply String.eqb_eq in E. subst k'. intuition.
    + rewrite IH. intuition.
Qed.

Lemma keys_set_NoDup {V : Type} (k : string) (v : V) (d : list (string * V)) :
  NoDup (map fst d) -> NoDup (map fst (dict_set k v d)).
Proof.
  induction d as [|[k' v'] d IH]; cbn [dict_set map fst]; intros H.
  - constructor; [intros []|constructor].
  - inversion H as [|? ? Hnot Hnd]; subst.
    destruct (String.eqb k' k) eqn:E; cbn [map fst].
    + constructor; assumption.
    + constructor; [|now apply IH].
      rewrite keys_set. intros [->|Hin]; [|contradiction].
      rewrite String.eqb_refl in E. discriminate.
Qed.

Lemma options_keys (cs : list course) (d0 : list (string * course)) :
  NoDup (map fst d0) ->
  NoDup (map fst (fold_left (fun d c => dict_set (course_label c) c d) cs d0))
  /\ forall x,
       In x (map fst (fold_left (fun d c => dict_set (course_label c) c d) cs d0))
       <-> In x (map fst d0) \/ exists c, In c cs /\ course_label c = x.
Proof.
  revert d0. induction cs as [|c cs IH]; intros d0 H; cbn [fold_left].
  - split; [exact H|]. intros x. split; [now left|].
    intros [Hx|(c & [] & _)]. exact Hx.
  - destruct (IH (dict_set (course_label c) c d0) (keys_set_NoDup _ _ _ H)) as [Hn Hi].
    split; [exact Hn|]. intros x. rewrite Hi, keys_set. split.
    + intros [[->|Hx]|(c' & Hc' & E)].
      * right. exists c. split; [now left | reflexivity].
      * now left.
      * right. exists c'. split; [now right | exact E].
    + intros [Hx|(c' & [<-|Hc'] & E)].
      * left. now right.
      * left. left. now symmetry.
      * right. exists c'. now split.
Qed.

(** X14.  The select box of courses offers every label "code - title" of
    the loaded courses exactly once, and choosing a label selects the last of
    the loaded courses that has this label. *)
Theorem select_box_last_wins (courses_ : list course) (selected_label : string) :
  selected_course courses_ selected_label
  = find (fun c => String.eqb (course_label c) selected_label) (rev courses_)
  /\ NoDup (labels courses_)
  /\ (forall x, In x (labels courses_)
                <-> exists c, In c courses_ /\ course_label c = x).
Proof.
  unfold selected_course, labels, options. split; [|split].
  - rewrite options_get. cbn [dict_get].
    now destruct (find _ (rev courses_)).
  - apply (options_keys courses_ []). constructor.
  - intros x. destruct (options_keys courses_ [] (NoDup_nil _)) as [_ H].
    rewrite H. cbn [map In]. tauto.
Qed.

(** X15.  A loaded course that is followed in the list by another course
    with the same code and title cannot be selected, whatever label is
    chosen: the later course takes its place in the select box. *)
Theorem shadowed_course_unreachable
        (before after : list course) (c c' : course) (selected_label : string) :
  In c' after ->
  course_label c' = course_label c ->
  ~ In c after ->
  selected_course (before ++ c :: after) selected_label <> Some c.
Proof.
  intros Hin Hl Hnot Hsel.
  unfold selected_course, options in Hsel. rewrite options_get in Hsel.
  cbn [dict_get] in Hsel.
  set (p := fun c0 => String.eqb (course_label c0) selected_label) in *.
  assert (Hf : find p (rev (before ++ c :: after)) = Some c).
  { destruct (find p (rev (before ++ c :: after))); [exact Hsel | discriminate]. }
  clear Hsel. rewrite rev_app_distr in Hf. cbn [rev] in Hf.
  rewrite <- !app_assoc, find_app in Hf.
  destruct (find p (rev after)) as [x|] eqn:E.
  - injection Hf as ->. apply find_some in E. destruct E as [E _].
    apply in_rev in E. contradiction.
  - assert (Hpc : p c = true).
    { rewrite find_app in Hf. cbn [find] in Hf.
      destruct (p c) eqn:Epc; [reflexivity|].
      apply find_some in Hf. destruct Hf as [_ Hf]. congruence. }
    assert (Hpc' : p c' = true) by (unfold p in *; now rewrite Hl).
    rewrite (find_none _ _ E c') in Hpc'; [discriminate|].
    now apply in_rev in Hin.
Qed.

Lemma shadowed_course_unreachable_witness :
  loaded_courses = [] ++ acct_in_person :: tl loaded_courses
  /\ In acct_online (tl loaded_courses)
  /\ course_label acct_online = course_label acct_in_person
  /\ ~ In acct_in_person (tl loaded_courses)
  /\ selected_course loaded_courses (course_label acct_in_person) = Some acct_online
  /\ selected_course loaded_courses (course_label acct_in_person) <> Some acct_in_person.
Proof.
  split; [reflexivity|].
  assert (H1 : In acct_online (tl loaded_courses)) by (right; left; reflexivity).
  assert (H3 : ~ In acct_in_person (tl loaded_courses)).
  { intros [H|[H|[]]]; discriminate. }
  split; [exact H1|]. split; [reflexivity|]. split; [exact H3|].
  split; [reflexivity|].
  exact (shadowed_course_unreachable [] (tl loaded_courses) acct_in_person acct_online
           (course_label acct_in_person) H1 eq_refl H3).
Defined.

(** ** What a save writes *)

(** X16.  Every record a successful save leaves for the pair is complete: it
    carries the instructor and course codes of the call, a label without
    white space around it, and a number in each of the three numeric cells;
    no cell is missing. *)
Theorem saved_records_complete (ic cc : string) (df : DataFrame) (w w' : world) :
  save_assessments_for_course ic cc df w = (inr tt, w') ->
  Forall (fun r => exists t p a m,
              r = mkRow (Some ic) (Some cc) (Some t) p a m
              /\ strip t = t
              /\ PrimFloat.is_nan p = false
              /\ PrimFloat.is_nan a = false
              /\ PrimFloat.is_nan m = false)
         (persisted ic cc w').
Proof.
  intros Hs. apply save_success in Hs. destruct Hs as (Hc & _ & ->).
  assert (Ha : has_matrix_columns (accepted df) = true) by exact Hc.
  rewrite persisted_replaceAll by exact Ha. unfold accepted. cbn [lines].
  rewrite accepted_line. unfold records.
  rewrite !map_map. apply Forall_forall. intros r Hr.
  apply in_map_iff in Hr. destruct Hr as ([i c t p a m] & <- & _).
  unfold set_course_code, set_instructor_code.
  cbn [instructor_code course_code assessment_type percent_of_class_assessment
       ai_misuse_susceptibility modification_level].
  exists (match t with Some t0 => strip t0 | None => strip "" end),
         (fillna_num 0 p), (fillna_num 0 a), (fillna_num 0 m).
  split; [now destruct t|]. split; [destruct t; apply strip_idempotent|].
  repeat split; now apply fillna_num_not_nan.
Qed.

Lemma saved_records_complete_witness :
  let w' := snd (save_assessments_for_course "i1" "c1" untidy busy_world) in
  save_assessments_for_course "i1" "c1" untidy busy_world = (inr tt, w')
  /\ Forall (fun r => exists t p a m,
                r = mkRow (Some "i1") (Some "c1") (Some t) p a m
                /\ strip t = t
                /\ PrimFloat.is_nan p = false
                /\ PrimFloat.is_nan a = false
                /\ PrimFloat.is_nan m = false)
            (persisted "i1" "c1" w').
Proof.
  cbv zeta. split; [reflexivity|].
  apply (saved_records_complete "i1" "c1" untidy busy_world). reflexivity.
Defined.

(** ** Session and login *)

(** X17.  Logging in.  An input that is empty or white space only is
    refused with "Please enter a code."; an input whose stripped form is the
    code of no instructor is refused as invalid; in both cases the session is
    left as it was.  A login succeeds only with the stripped input being the
    code of an instructor, and then the session is logged in under exactly
    that code with that instructor's name and email.  White space around the
    input makes no difference. *)
Theorem login_contract (instructors : list instructor) (typed : string)
        (s : session_state) :
  (strip typed = "" ->
   login_view instructors typed s = (login_error "Please enter a code.", s))
  /\ (strip typed <> "" ->
      (forall i, In i instructors -> code i <> strip typed) ->
      login_view instructors typed s
      = (login_error "Invalid code. Please check your code or contact the organizer.",
         s))
  /\ (forall s', login_view instructors typed s = (rerun, s') ->
        strip typed <> ""
        /\ logged_in s' = Some true
        /\ session_code s' = Some (strip typed)
        /\ exists i, In i instructors /\ code i = strip typed
                     /\ user_info s' = Some (Some (mkUser (name i) (email i))))
  /\ login_view instructors (strip typed) s = login_view instructors typed s.
Proof.
  unfold login_view. cbv zeta. split; [|split; [|split]].
  - intros E. now rewrite E.
  - intros E Hnone. apply String.eqb_neq in E. rewrite E.
    rewrite filter_nothing; [reflexivity|].
    intros i Hi. apply String.eqb_neq. now apply Hnone.
  - intros s' H. destruct (String.eqb (strip typed) "") eqn:E; [discriminate|].
    apply String.eqb_neq in E. split; [exact E|].
    destruct (filter (fun i => String.eqb (code i) (strip typed)) instructors)
      as [|found rest] eqn:F; [discriminate|].
    assert (Hf : In found (filter (fun i => String.eqb (code i) (strip typed)) instructors))
      by (rewrite F; now left).
    apply filter_In in Hf. destruct Hf as [Hin Hc]. apply String.eqb_eq in Hc.
    injection H as <-. cbn. split; [reflexivity|]. split; [now rewrite Hc|].
    exists found. repeat split; assumption.
  - now rewrite strip_idempotent.
Qed.

Lemma login_contract_witness :
  login_view staff "  " cleared = (login_error "Please enter a code.", cleared)
  /\ login_view staff " i3" cleared
     = (login_error "Invalid code. Please check your code or contact the organizer.",
        cleared)
  /\ login_view staff (no_break_space ++ "i1 ") cleared
     = (rerun, mkSession (Some true) (Some "i1")
                         (Some (Some (mkUser (Some "Ada") (Some "ada@example.org")))))
  /\ login_view staff (no_break_space ++ "i1 ") cleared = login_view staff "i1" cleared.
Proof.
  destruct (login_contract staff "  " cleared) as (H1 & _).
  destruct (login_contract staff " i3" cleared) as (_ & H2 & _).
  destruct (login_contract staff (no_break_space ++ "i1 ") cleared) as (_ & _ & _ & H4).
  split; [exact (H1 eq_refl)|]. split; [|split; [reflexivity|]].
  - apply H2; [discriminate|].
    intros i Hi. simpl in Hi. destruct Hi as [<-|[<-|[]]]; discriminate.
  - symmetry. exact H4.
Defined.

(** X18.  After a successful login the next run of [main] shows the main
    view and keeps the session as the login wrote it; after a logout, which
    clears the session, the next run shows the login view with a session
    that is not logged in and has an empty code. *)
Theorem login_then_main (instructors : list instructor) (typed : string)
        (s s' : session_state) :
  login_view instructors typed s = (rerun, s') ->
  main s' = (MainView, s')
  /\ main cleared = (LoginView, mkSession (Some false) (Some "") (Some None))
  /\ init_session_state (snd (main cleared)) = snd (main cleared).
Proof.
  intros H. unfold login_view in H. cbv zeta in H.
  destruct (String.eqb (strip typed) ""); [discriminate|].
  destruct (filter _ instructors) as [|found rest]; [discriminate|].
  injection H as <-. repeat split.
Qed.

Lemma login_then_main_witness :
  let s' := snd (login_view staff "i2" cleared) in
  login_view staff "i2" cleared = (rerun, s')
  /\ main s' = (MainView, s')
  /\ session_code s' = Some "i2".
Proof.
  cbv zeta. split; [reflexivity|]. split; [|reflexivity].
  exact (proj1 (login_then_main staff "i2" cleared _ eq_refl)).
Defined.

(** ** Frames that lack a column *)

(** X19.  A frame that lacks one of the four columns of the matrix is never
    saved.  The save raises before any query is sent and the store is what
    it was; what it raises is [KeyError] for a column the frame does not
    have, or, when the label and percent columns are there and the total is
    off, the error of the total.  The frame shown after a failed load, which
    has the labels only, raises [KeyError] for the percent column. *)
Theorem save_without_column (ic cc : string) (df : DataFrame) (w : world) :
  has_matrix_columns df = false ->
  exists e,
    save_assessments_for_course ic cc df w = (inl e, w)
    /\ (e = ValueError (percent_sum_message (total_percent df))
        \/ exists c, e = KeyError [c] /\ In c matrix_columns /\ has_column c df = false).
Proof.
  unfold has_matrix_columns, matrix_columns. cbn [forallb]. intros Hc.
  unfold save_assessments_for_course, bind, lift. rewrite validate_cases.
  destruct (has_column "assessment_type" df) eqn:H1; cbn [negb].
  2:{ eexists. split; [reflexivity|]. right. eexists. split; [reflexivity|].
      split; [|exact H1]. cbn. tauto. }
  destruct (has_column "percent_of_class_assessment" df) eqn:H2; cbn [negb].
  2:{ eexists. split; [reflexivity|]. right. eexists. split; [reflexivity|].
      split; [|exact H2]. cbn. tauto. }
  destruct (outside_tolerance (total_percent df)).
  { eexists. split; [reflexivity|]. now left. }
  destruct (has_column "ai_misuse_susceptibility" df) eqn:H3; cbn [negb].
  2:{ eexists. split; [reflexivity|]. right. eexists. split; [reflexivity|].
      split; [|exact H3]. cbn. tauto. }
  destruct (has_column "modification_level" df) eqn:H4; cbn [negb].
  2:{ eexists. split; [reflexivity|]. right. eexists. split; [reflexivity|].
      split; [|exact H4]. cbn. tauto. }
  discriminate Hc.
Qed.

Lemma save_without_column_witness :
  has_matrix_columns fallback_frame = false
  /\ save_assessments_for_course "i1" "c1" fallback_frame busy_world
     = (inl (KeyError ["percent_of_class_assessment"]), busy_world)
  /\ exists e,
       save_assessments_for_course "i1" "c1" fallback_frame busy_world
       = (inl e, busy_world)
       /\ (e = ValueError (percent_sum_message (total_percent fallback_frame))
           \/ exists c, e = KeyError [c] /\ In c matrix_columns
                        /\ has_column c fallback_frame = false).
Proof.
  split; [reflexivity|]. split; [reflexivity|].
  exact (save_without_column "i1" "c1" fallback_frame busy_world eq_refl).
Defined.

(** ** The total shown above the editor *)


